(** * Auto Trader API: a shallow embedding of [main.py] and [schemas.py]

    The development follows the layout of the repository:
    - Python values, dates and documents (dictionaries with string keys);
    - the pydantic schemas of [schemas.py] with their field constraints;
    - a monad for handler code: state is the document store, a computation
      returns, raises, or leaves the part of Python that is modelled here;
    - the interface of the [database] module, which [main.py] imports, as a
      type class, and a model of that module written from the specification;
    - the handlers of [main.py];
    - the properties of the specification. *)

From Stdlib Require Import ZArith QArith Ascii String List Bool HexString Lia.
From stdpp Require Import base option list strings gmap fin_maps.

Local Open Scope Z_scope.
Local Open Scope string_scope.

(** ** Python values *)

(** [datetime.date]: year, month, day. *)
Record date := Date { d_year : nat; d_month : nat; d_day : nat }.

(** A naive [datetime.datetime] (no time zone, as the driver returns them). *)
Record datetime := Datetime {
  dt_date : date;
  dt_hour : nat;
  dt_minute : nat;
  dt_second : nat;
  dt_microsecond : nat
}.

(** [bson.ObjectId]: a 12-byte value, kept as the number it denotes. *)
Record ObjectId := Oid { oid_value : N }.

(** The values found in request bodies and in stored documents.  A Python
    [float] is represented by the rational it denotes; NaN and the
    infinities are not represented. *)
#[warnings="-register-all"]
Inductive value :=
| VNone
| VBool (b : bool)
| VInt (n : Z)
| VFloat (x : Q)
| VStr (s : string)
| VList (l : list value)
| VObjectId (oid : ObjectId)
| VDate (d : date)
| VDatetime (t : datetime).

(** A Python [dict] with string keys. *)
Abbreviation document := (gmap string value).

(** *** Decimal and hexadecimal rendering *)

Definition digit_char (n : nat) : ascii := ascii_of_nat (48 + n mod 10).

(** [zfill w n]: the last [w] decimal digits of [n], as ["%0wd"] prints a
    number below [10^w]. *)
Fixpoint zfill (w n : nat) : string :=
  match w with
  | O => ""
  | S w' => zfill w' (n / 10) +:+ String (digit_char n) ""
  end.

(** [date.isoformat()]: [YYYY-MM-DD]. *)
Definition date_isoformat (d : date) : string :=
  zfill 4 (d_year d) +:+ "-" +:+ zfill 2 (d_month d) +:+ "-" +:+ zfill 2 (d_day d).

(** [datetime.isoformat(sep)]: [YYYY-MM-DD], the separator, [HH:MM:SS],
    followed by [.ffffff] when the microsecond is not zero. *)
Definition datetime_isoformat_sep (sep : string) (t : datetime) : string :=
  date_isoformat (dt_date t) +:+ sep +:+ zfill 2 (dt_hour t) +:+ ":" +:+
  zfill 2 (dt_minute t) +:+ ":" +:+ zfill 2 (dt_second t) +:+
  (if Nat.eqb (dt_microsecond t) 0 then ""
   else "." +:+ zfill 6 (dt_microsecond t)).

Definition datetime_isoformat : datetime -> string := datetime_isoformat_sep "T".

Fixpoint zeros (n : nat) : string :=
  match n with
  | O => ""
  | S n' => String "0" (zeros n')
  end.

Definition hex_digits (n : N) : string :=
  match n with
  | N0 => ""
  | Npos p => HexString.Raw.of_pos p ""
  end.

(** [str(ObjectId)]: 24 hexadecimal digits. *)
Definition str_oid (o : ObjectId) : string :=
  let h := hex_digits (oid_value o) in
  zeros (24 - String.length h) +:+ h.

(** Reading the hexadecimal form back. *)
Definition oid_of_str (s : string) : ObjectId :=
  Oid (HexString.Raw.to_N s 0%N).

(** *** Truth value, [hasattr(v, "isoformat")], [str] *)

(** [bool(v)]. *)
Definition truthy (v : value) : bool :=
  match v with
  | VNone => false
  | VBool b => b
  | VInt n => negb (Z.eqb n 0)
  | VFloat x => negb (Qeq_bool x 0)
  | VStr s => negb (String.eqb s "")
  | VList l => match l with [] => false | _ => true end
  | VObjectId _ | VDate _ | VDatetime _ => true
  end.

(** [hasattr(v, "isoformat")] holds of dates and datetimes. *)
Definition has_isoformat (v : value) : bool :=
  match v with
  | VDate _ | VDatetime _ => true
  | _ => false
  end.

(** [v.isoformat()] where [v] has the method, [v] itself elsewhere. *)
Definition isoformat (v : value) : value :=
  match v with
  | VDate d => VStr (date_isoformat d)
  | VDatetime t => VStr (datetime_isoformat t)
  | _ => v
  end.

(** Decimal form of an integer, as [str(n)] prints it. *)
Fixpoint nat_digits (fuel n : nat) (acc : string) : string :=
  match fuel with
  | O => acc
  | S fuel' =>
      let acc' := String (digit_char n) acc in
      if Nat.ltb n 10 then acc' else nat_digits fuel' (n / 10) acc'
  end.

Definition str_int (n : Z) : string :=
  let m := Z.abs_nat n in
  (if Z.ltb n 0 then "-" else "") +:+ nat_digits (S m) m "".

(** [str(v)].  The textual forms of floats and lists are not modelled. *)
Definition py_str (v : value) : option string :=
  match v with
  | VNone => Some "None"
  | VBool b => Some (if b then "True" else "False")
  | VInt n => Some (str_int n)
  | VStr s => Some s
  | VObjectId o => Some (str_oid o)
  | VDate d => Some (date_isoformat d)
  | VDatetime t => Some (datetime_isoformat_sep " " t)
  | VFloat _ | VList _ => None
  end.

(** ** Schemas ([schemas.py]) *)

(** A member of a JSON request body is left out or given; a member of an
    [Optional] type may be given as [null], which is [Given None]. *)
Inductive field (A : Type) :=
| Omitted
| Given (a : A).
Arguments Omitted {A}.
Arguments Given {A} a.

(** The outcome of validating a body: the locations of the members that
    fail, or the model instance.  Errors of all members are collected. *)
Definition validated (A : Type) : Type := list string + A.

Definition required {A} (loc : string) (f : field A) : validated A :=
  match f with
  | Omitted => inl [loc]
  | Given a => inr a
  end.

Definition with_default {A} (d : A) (f : field A) : validated A :=
  match f with
  | Omitted => inr d
  | Given a => inr a
  end.

(** A constraint of [Field(...)]: [ge=], [le=] and the like. *)
Definition constrained {A} (loc : string) (ok : A -> bool) (v : validated A) : validated A :=
  match v with
  | inl e => inl e
  | inr a => if ok a then inr a else inl [loc]
  end.

(** A constraint on an [Optional] member applies to a value, not to [None]. *)
Definition unless_none {A} (ok : A -> bool) (o : option A) : bool :=
  match o with
  | None => true
  | Some a => ok a
  end.

Definition vap {A B} (f : validated (A -> B)) (x : validated A) : validated B :=
  match f, x with
  | inr g, inr a => inr (g a)
  | inl e, inr _ => inl e
  | inr _, inl e => inl e
  | inl e1, inl e2 => inl (e1 ++ e2)%list
  end.

Notation "f <*> x" := (vap f x) (at level 61, left associativity).

Definition ge_int (lo x : Z) : bool := Z.leb lo x.
Definition le_int (hi x : Z) : bool := Z.leb x hi.
Definition ge_float (lo x : Q) : bool := Qle_bool lo x.
Definition le_float (hi x : Q) : bool := Qle_bool x hi.

(** [pydantic.HttpUrl]: a URL as pydantic holds it once it is parsed,
    given by its text.  As for the other types of the members, a text that
    is no URL is not a value of the type: the bodies below have members of
    the types of the schema, and a body with a member of another type (a
    text for a year, a text that is no URL for a photo), which pydantic
    rejects, is outside them. *)
Record HttpUrl := Url { url_text : string }.

(** [pydantic.BaseModel]: a model instance converts to a plain mapping.
    The conversion is the one that the specification gives for
    [create_document]: all members are preserved, lists included, and an
    optional member that is [None] is absent from the mapping rather than
    present as a null. *)
Class BaseModel (A : Type) := { model_dump : A -> document }.

Definition set_opt (k : string) (o : option value) (d : document) : document :=
  match o with
  | Some v => <[k := v]> d
  | None => d
  end.

(** [class Dealer(BaseModel)] *)
Module Dealer.
Record t := Build {
  name : string;
  email : string;
  phone : option string;
  city : option string;
  state : option string;
  rating : option Q
}.

Definition dump (x : t) : document :=
  set_opt "rating" (VFloat <$> rating x)
  (set_opt "state" (VStr <$> state x)
  (set_opt "city" (VStr <$> city x)
  (set_opt "phone" (VStr <$> phone x)
  (<["email" := VStr (email x)]>
  (<["name" := VStr (name x)]> ∅))))).
End Dealer.

Module DealerBody.
Record t := Build {
  name : field string;
  email : field string;
  phone : field (option string);
  city : field (option string);
  state : field (option string);
  rating : field (option Q)
}.
End DealerBody.

Definition validate_dealer (b : DealerBody.t) : validated Dealer.t :=
  inr Dealer.Build
  <*> required "name" (DealerBody.name b)
  <*> required "email" (DealerBody.email b)
  <*> with_default None (DealerBody.phone b)
  <*> with_default None (DealerBody.city b)
  <*> with_default None (DealerBody.state b)
  <*> constrained "rating" (unless_none (fun r => ge_float 0 r && le_float 5 r))
        (with_default (Some (9 # 2)%Q) (DealerBody.rating b)).

(** [class Car(BaseModel)] *)
Module Car.
Record t := Build {
  make : string;
  model : string;
  year : Z;
  price : Q;
  mileage : option Z;
  fuel_type : option string;
  transmission : option string;
  body_style : option string;
  color : option string;
  location : option string;
  features : list string;
  photos : list HttpUrl;
  dealer_id : option string;
  listed_on : option date;
  condition : option string
}.

Definition dump (x : t) : document :=
  set_opt "condition" (VStr <$> condition x)
  (set_opt "listed_on" (VDate <$> listed_on x)
  (set_opt "dealer_id" (VStr <$> dealer_id x)
  (<["photos" := VList (VStr ∘ url_text <$> photos x)]>
  (<["features" := VList (VStr <$> features x)]>
  (set_opt "location" (VStr <$> location x)
  (set_opt "color" (VStr <$> color x)
  (set_opt "body_style" (VStr <$> body_style x)
  (set_opt "transmission" (VStr <$> transmission x)
  (set_opt "fuel_type" (VStr <$> fuel_type x)
  (set_opt "mileage" (VInt <$> mileage x)
  (<["price" := VFloat (price x)]>
  (<["year" := VInt (year x)]>
  (<["model" := VStr (model x)]>
  (<["make" := VStr (make x)]> ∅)))))))))))))).
End Car.

Module CarBody.
Record t := Build {
  make : field string;
  model : field string;
  year : field Z;
  price : field Q;
  mileage : field (option Z);
  fuel_type : field (option string);
  transmission : field (option string);
  body_style : field (option string);
  color : field (option string);
  location : field (option string);
  features : field (list string);
  photos : field (list HttpUrl);
  dealer_id : field (option string);
  listed_on : field (option date);
  condition : field (option string)
}.
End CarBody.

Definition validate_car (b : CarBody.t) : validated Car.t :=
  inr Car.Build
  <*> required "make" (CarBody.make b)
  <*> required "model" (CarBody.model b)
  <*> constrained "year" (fun y => ge_int 1900 y && le_int 2100 y)
        (required "year" (CarBody.year b))
  <*> constrained "price" (ge_float 0) (required "price" (CarBody.price b))
  <*> constrained "mileage" (unless_none (ge_int 0))
        (with_default None (CarBody.mileage b))
  <*> with_default (Some "Gasoline") (CarBody.fuel_type b)
  <*> with_default (Some "Automatic") (CarBody.transmission b)
  <*> with_default None (CarBody.body_style b)
  <*> with_default None (CarBody.color b)
  <*> with_default None (CarBody.location b)
  <*> with_default [] (CarBody.features b)
  <*> with_default [] (CarBody.photos b)
  <*> with_default None (CarBody.dealer_id b)
  <*> with_default None (CarBody.listed_on b)
  <*> with_default (Some "Used") (CarBody.condition b).

(** [class Lead(BaseModel)] *)
Module Lead.
Record t := Build {
  car_id : string;
  name : string;
  email : string;
  phone : option string;
  message : option string
}.

Definition dump (x : t) : document :=
  set_opt "message" (VStr <$> message x)
  (set_opt "phone" (VStr <$> phone x)
  (<["email" := VStr (email x)]>
  (<["name" := VStr (name x)]>
  (<["car_id" := VStr (car_id x)]> ∅)))).
End Lead.

Module LeadBody.
Record t := Build {
  car_id : field string;
  name : field string;
  email : field string;
  phone : field (option string);
  message : field (option string)
}.
End LeadBody.

Definition validate_lead (b : LeadBody.t) : validated Lead.t :=
  inr Lead.Build
  <*> required "car_id" (LeadBody.car_id b)
  <*> required "name" (LeadBody.name b)
  <*> required "email" (LeadBody.email b)
  <*> with_default None (LeadBody.phone b)
  <*> with_default None (LeadBody.message b).

#[export] Instance Dealer_BaseModel : BaseModel Dealer.t := {| model_dump := Dealer.dump |}.
#[export] Instance Car_BaseModel : BaseModel Car.t := {| model_dump := Car.dump |}.
#[export] Instance Lead_BaseModel : BaseModel Lead.t := {| model_dump := Lead.dump |}.

(** ** Handler computations *)

(** A computation over the store returns a value, raises an exception, or
    reaches a Python behaviour that this development does not describe
    ([Unmodelled]: the text of a float, a pattern outside the fragment of
    regular expressions below, ...).  Nothing is claimed about such runs,
    and no handler can catch them. *)
Inductive outcome (E A : Type) :=
| Return (a : A)
| Raise (e : E)
| Unmodelled.
Arguments Return {E A} a.
Arguments Raise {E A} e.
Arguments Unmodelled {E A}.

Definition M (S E A : Type) : Type := S -> outcome E A * S.

Definition ret {S E A} (a : A) : M S E A := fun st => (Return a, st).
Definition raise {S E A} (e : E) : M S E A := fun st => (Raise e, st).
Definition unmodelled {S E A} : M S E A := fun st => (Unmodelled, st).

Definition bind {S E A B} (c : M S E A) (k : A -> M S E B) : M S E B :=
  fun st =>
    match c st with
    | (Return a, st') => k a st'
    | (Raise e, st') => (Raise e, st')
    | (Unmodelled, st') => (Unmodelled, st')
    end.

(** [try: c  except Exception as e: h e] *)
Definition try_except {S E E' A} (c : M S E A) (h : E -> M S E' A) : M S E' A :=
  fun st =>
    match c st with
    | (Return a, st') => (Return a, st')
    | (Raise e, st') => h e st'
    | (Unmodelled, st') => (Unmodelled, st')
    end.

Definition of_option {S E A} (o : option A) : M S E A :=
  match o with
  | Some a => ret a
  | None => unmodelled
  end.

#[export] Instance M_ret {S E} : MRet (M S E) := fun A => @ret S E A.
#[export] Instance M_bind {S E} : MBind (M S E) := fun A B k c => bind c k.

(** [[f(x) for x in xs]], left to right. *)
Fixpoint for_each {S E A B} (f : A -> M S E B) (xs : list A) : M S E (list B) :=
  match xs with
  | [] => ret []
  | x :: xs' => y ← f x; ys ← for_each f xs'; ret (y :: ys)
  end.

(** Exceptions raised below the handlers. *)
Inductive error_kind := StoreUnavailable | WriteError | QueryError.

Inductive pyexn :=
| StoreError (kind : error_kind) (msg : string)
| ValidationError (errors : list string).

(** [str(e)]; the report that pydantic prints for a validation error is
    not modelled. *)
Definition str_exn (e : pyexn) : option string :=
  match e with
  | StoreError _ msg => Some msg
  | ValidationError _ => None
  end.

(** What a route answers with when it does not return:
    [fastapi.HTTPException], and the rejection of a request body or query
    that fails validation, which FastAPI answers with status 422. *)
Inductive http_error :=
| HTTPException (status_code : Z) (detail : string)
| RequestValidationError (errors : list string).

Definition status_of (e : http_error) : Z :=
  match e with
  | HTTPException code _ => code
  | RequestValidationError _ => 422
  end.

(** ** Filters *)

(** A filter maps a field name to a mapping from operator names
    ([$regex], [$options], [$gte], [$lte]) to operands. *)
Abbreviation operators := (gmap string value).
Abbreviation query := (gmap string (gmap string value)).

(** *** The fragment of regular expressions that is modelled

    Patterns are an optional [^], then literal characters and [.], then an
    optional [$].  Every other pattern, every option but [i], text outside
    7-bit ASCII and subjects of several lines are left unmodelled. *)
Inductive atom :=
| Lit (c : ascii)
| AnyChar.

Record regex := Regex {
  anchor_start : bool;
  atoms : list atom;
  anchor_end : bool
}.

Definition is_meta (c : ascii) : bool :=
  existsb (Ascii.eqb c)
    ["\"; "^"; "$"; "."; "|"; "?"; "*"; "+"; "("; ")"; "["; "]"; "{"; "}"]%char.

Fixpoint parse_atoms (s : string) : option (list atom * bool) :=
  match s with
  | "" => Some ([], false)
  | String c s' =>
      if Ascii.eqb c "$" && String.eqb s' "" then Some ([], true)
      else
        match parse_atoms s' with
        | None => None
        | Some (l, e) =>
            if Ascii.eqb c "." then Some (AnyChar :: l, e)
            else if is_meta c then None
            else Some (Lit c :: l, e)
        end
  end.

Definition parse_regex (s : string) : option regex :=
  match s with
  | String "^" s' => '(l, e) ← parse_atoms s'; Some (Regex true l e)
  | _ => '(l, e) ← parse_atoms s; Some (Regex false l e)
  end.

Definition is_upper (c : ascii) : bool :=
  (Nat.leb 65 (nat_of_ascii c) && Nat.leb (nat_of_ascii c) 90)%bool.

Definition lower (c : ascii) : ascii :=
  if is_upper c then ascii_of_nat (nat_of_ascii c + 32) else c.

Fixpoint lower_string (s : string) : string :=
  match s with
  | "" => ""
  | String c s' => String (lower c) (lower_string s')
  end.

Definition atom_matches (caseless : bool) (a : atom) (c : ascii) : bool :=
  match a with
  | Lit x => if caseless then Ascii.eqb (lower x) (lower c) else Ascii.eqb x c
  | AnyChar => true
  end.

(** Matching the atoms at the head of the subject: what is left of it. *)
Fixpoint match_here (caseless : bool) (l : list atom) (s : string) : option string :=
  match l, s with
  | [], _ => Some s
  | a :: l', String c s' =>
      if atom_matches caseless a c then match_here caseless l' s' else None
  | _ :: _, "" => None
  end.

Definition match_at (caseless : bool) (r : regex) (s : string) : bool :=
  match match_here caseless (atoms r) s with
  | Some rest => if anchor_end r then String.eqb rest "" else true
  | None => false
  end.

Fixpoint search_from (caseless : bool) (r : regex) (s : string) : bool :=
  match_at caseless r s ||
  match s with
  | "" => false
  | String _ s' => search_from caseless r s'
  end.

Definition search (caseless : bool) (r : regex) (s : string) : bool :=
  if anchor_start r then match_at caseless r s else search_from caseless r s.

Fixpoint is_ascii7 (s : string) : bool :=
  match s with
  | "" => true
  | String c s' => Nat.ltb (nat_of_ascii c) 128 && is_ascii7 s'
  end.

(** Line feed and carriage return: where [.] and [$] depend on the newline
    convention of the engine. *)
Definition is_line_break (c : ascii) : bool :=
  Nat.eqb (nat_of_ascii c) 10 || Nat.eqb (nat_of_ascii c) 13.

Fixpoint one_line (s : string) : bool :=
  match s with
  | "" => true
  | String c s' => negb (is_line_break c) && one_line s'
  end.

Definition parse_options (o : string) : option bool :=
  if String.eqb o "" then Some false
  else if String.eqb o "i" then Some true
  else None.

(** [{"$regex": pattern, "$options": options}] against a string.  The
    subjects that are modelled are single lines of 7-bit ASCII. *)
Definition regex_match (pattern options subject : string) : option bool :=
  if is_ascii7 pattern && is_ascii7 subject && one_line subject then
    caseless ← parse_options options;
    r ← parse_regex pattern;
    Some (search caseless r subject)
  else None.

(** *** What a filter means *)

Definition number_of (v : value) : option Q :=
  match v with
  | VInt n => Some (inject_Z n)
  | VFloat x => Some x
  | _ => None
  end.

(** A comparison operator with operand [arg] (absent: no constraint)
    against the field of a document.  Only numbers compare with a number;
    operands that are not numbers and fields that hold arrays are left
    unmodelled. *)
Definition compare_op (test : Q -> Q -> bool) (arg fld : option value) : option bool :=
  match arg with
  | None => Some true
  | Some a =>
      bound ← number_of a;
      match fld with
      | Some (VList _) => None
      | Some v => Some (from_option (test bound) false (number_of v))
      | None => Some false
      end
  end.

Definition regex_op (c : operators) (fld : option value) : option bool :=
  match c !! "$regex" with
  | None => if c !! "$options" is Some _ then None else Some true
  | Some (VStr p) =>
      o ← match c !! "$options" with
          | None => Some ""
          | Some (VStr o) => Some o
          | Some _ => None
          end;
      match fld with
      | Some (VStr s) => regex_match p o s
      | Some (VList _) => None
      | _ => Some false
      end
  | Some _ => None
  end.

Definition supported_operators : gset string :=
  {[ "$regex"; "$options"; "$gte"; "$lte" ]}.

(** All operators of one field hold. *)
Definition eval_operators (c : operators) (fld : option value) : option bool :=
  if bool_decide (c ≠ ∅ ∧ dom c ⊆ supported_operators) then
    lo ← compare_op Qle_bool (c !! "$gte") fld;
    hi ← compare_op (fun bound x => Qle_bool x bound) (c !! "$lte") fld;
    re ← regex_op c fld;
    Some (lo && hi && re)
  else None.

(** A document matches a filter when the operators of every field of the
    filter hold: the fields are combined by conjunction. *)
Definition doc_matches (q : query) (d : document) : option bool :=
  if bool_decide (map_Forall (fun k c => is_Some (eval_operators c (d !! k))) q)
  then Some (bool_decide (map_Forall (fun k c => eval_operators c (d !! k) = Some true) q))
  else None.

Fixpoint select (q : query) (docs : list document) : option (list document) :=
  match docs with
  | [] => Some []
  | d :: docs' =>
      b ← doc_matches q d;
      r ← select q docs';
      Some (if b : bool then d :: r else r)
  end.

(** ** The [database] module *)

(** What [main.py] imports from [database]. *)
Class DocumentAccess (S : Type) := MkDocumentAccess {
  create_document : forall {A} `{BaseModel A}, string -> A -> M S pyexn string;
  get_documents : string -> query -> Z -> M S pyexn (list document)
}.

Module Database.

(** Modelled from the spec: the document store adapter, which is not
    part of the sources.  A store is connected or not, holds the raw
    documents of each collection in the order of their insertion, assigns
    identifiers from a counter, and may reject a document or a filter
    with a message. *)
Record Store := {
  connected : bool;
  collections : gmap string (list document);
  next_oid : N;
  rejects : document -> option string;
  refuses : query -> option string
}.

Definition collection (kind : string) (st : Store) : list document :=
  default [] (collections st !! kind).

Definition insert_one (kind : string) (d : document) (st : Store) : ObjectId * Store :=
  let oid := Oid (next_oid st) in
  (oid,
   {| connected := connected st;
      collections :=
        <[kind := (collection kind st ++ [<["_id" := VObjectId oid]> d])%list]> (collections st);
      next_oid := N.succ (next_oid st);
      rejects := rejects st;
      refuses := refuses st |}).

Definition unavailable : pyexn := StoreError StoreUnavailable "Database not available".

(** Modelled from the spec: [create_document(kind, record)] of the
    [database] module, which is not part of the sources.  It fails with
    [StoreUnavailable] without a connection and with [WriteError] when the
    insert is rejected; otherwise the record is converted to a mapping,
    exactly one document is inserted into the collection named by the
    kind tag, and the store-assigned identifier is returned as a
    string. *)
Definition create_document {A} `{BaseModel A} (kind : string) (record : A)
  : M Store pyexn string :=
  fun st =>
    if connected st then
      let d := model_dump record in
      match rejects st d with
      | Some msg => (Raise (StoreError WriteError msg), st)
      | None => let '(oid, st') := insert_one kind d st in (Return (str_oid oid), st')
      end
    else (Raise unavailable, st).

(** Modelled from the spec: [get_documents(kind, filter, limit)] of the
    [database] module, which is not part of the sources: the documents of
    the collection named by the kind tag that match the filter, in the
    order of the store, capped at [limit], a non-negative integer.  It
    fails with [StoreUnavailable] without a connection and with
    [QueryError] when the store refuses the filter, and it reads only.  The normalisation of the documents is done by the callers
    in [main.py] and is embedded from there. *)
Definition get_documents (kind : string) (q : query) (limit : Z)
  : M Store pyexn (list document) :=
  fun st =>
    if connected st then
      match refuses st q with
      | Some msg => (Raise (StoreError QueryError msg), st)
      | None =>
          if Z.ltb limit 0 then (Unmodelled, st)
          else
            match select q (collection kind st) with
            | Some docs => (Return (take (Z.to_nat limit) docs), st)
            | None => (Unmodelled, st)
            end
      end
    else (Raise unavailable, st).

#[export] Instance access : DocumentAccess Store :=
  MkDocumentAccess Store (@create_document) get_documents.

End Database.

#[export] Existing Instance Database.access.

(** ** The handlers of [main.py] *)

Section main.
Context {S : Type} `{!DocumentAccess S}.

(** [except Exception as e: raise HTTPException(status_code=500, detail=str(e))] *)
Definition internal_error {A} (e : pyexn) : M S http_error A :=
  detail ← of_option (str_exn e);
  raise (HTTPException 500 detail).

(** [create_car], [create_dealer] and [create_lead] *)
Definition create_car (car : Car.t) : M S http_error document :=
  try_except
    (new_id ← create_document "car" car;
     mret ({[ "id" := VStr new_id ]} : document))
    internal_error.

Definition create_dealer (dealer : Dealer.t) : M S http_error document :=
  try_except
    (new_id ← create_document "dealer" dealer;
     mret ({[ "id" := VStr new_id ]} : document))
    internal_error.

Definition create_lead (lead : Lead.t) : M S http_error document :=
  try_except
    (new_id ← create_document "lead" lead;
     mret ({[ "id" := VStr new_id ]} : document))
    internal_error.

(** An argument of type [Optional[str]] as a value, for [if make:]. *)
Definition of_optional_str (o : option string) : value :=
  from_option VStr VNone o.

(** [{"$regex": f"^{s}$", "$options": "i"}] *)
Definition anchored_regex (s : string) : operators :=
  <["$options" := VStr "i"]> ({[ "$regex" := VStr ("^" +:+ s +:+ "$") ]}).

Definition price_filter (min_price max_price : option Q) : operators :=
  let price_filter : operators := ∅ in
  let price_filter :=
    match min_price with
    | Some lo => <["$gte" := VFloat lo]> price_filter
    | None => price_filter
    end in
  match max_price with
  | Some hi => <["$lte" := VFloat hi]> price_filter
  | None => price_filter
  end.

(** The filter that [list_cars] builds from its arguments. *)
Definition car_query (make model : option string) (min_price max_price : option Q)
  : query :=
  let query : query := ∅ in
  let query :=
    if truthy (of_optional_str make)
    then <["make" := anchored_regex (default "" make)]> query else query in
  let query :=
    if truthy (of_optional_str model)
    then <["model" := anchored_regex (default "" model)]> query else query in
  let price_filter := price_filter min_price max_price in
  if bool_decide (price_filter ≠ ∅)
  then <["price" := price_filter]> query else query.

(** [d["id"] = str(d.pop("_id")) if d.get("_id") else None] *)
Definition publish_id (d : document) : option document :=
  match d !! "_id" with
  | Some v =>
      if truthy v
      then s ← py_str v; Some (<["id" := VStr s]> (delete "_id" d))
      else Some (<["id" := VNone]> d)
  | None => Some (<["id" := VNone]> d)
  end.

(** [for k, v in list(d.items()): if hasattr(v, "isoformat"): d[k] = v.isoformat()] *)
Definition convert_dates (d : document) : document :=
  map_fold (fun k v acc => if has_isoformat v then <[k := isoformat v]> acc else acc) d d.

(** [normalize] of [list_cars] *)
Definition normalize_car (d : document) : option document :=
  convert_dates <$> publish_id d.

(** [normalize] of [list_dealers] *)
Definition normalize_dealer (d : document) : option document :=
  publish_id d.

(** [list_cars]; [limit] is [None] when the caller leaves it out. *)
Definition list_cars (make model : option string) (min_price max_price : option Q)
    (limit : option Z) : M S http_error (list document) :=
  let limit := default 20 limit in
  let query := car_query make model min_price max_price in
  try_except
    (docs ← get_documents "car" query limit;
     for_each (fun doc => of_option (normalize_car doc)) docs)
    internal_error.

(** [list_dealers] *)
Definition list_dealers (limit : option Z) : M S http_error (list document) :=
  let limit := default 50 limit in
  try_except
    (docs ← get_documents "dealer" ∅ limit;
     for_each (fun doc => of_option (normalize_dealer doc)) docs)
    internal_error.

(** [Car(...)]: the constructor validates its arguments. *)
Definition construct_car (kwargs : CarBody.t) : M S pyexn Car.t :=
  match validate_car kwargs with
  | inl errors => raise (ValidationError errors)
  | inr car => mret car
  end.

Definition sample (make model : string) (year : Z) (price : Q) (mileage : Z)
    (fuel_type body_style color location : string) (features : list string)
    (photo : string) : CarBody.t :=
  {| CarBody.make := Given make;
     CarBody.model := Given model;
     CarBody.year := Given year;
     CarBody.price := Given price;
     CarBody.mileage := Given (Some mileage);
     CarBody.fuel_type := Given (Some fuel_type);
     CarBody.transmission := Given (Some "Automatic");
     CarBody.body_style := Given (Some body_style);
     CarBody.color := Given (Some color);
     CarBody.location := Given (Some location);
     CarBody.features := Given features;
     CarBody.photos := Given [Url photo];
     CarBody.dealer_id := Omitted;
     CarBody.listed_on := Omitted;
     CarBody.condition := Omitted |}.

Definition samples : list CarBody.t :=
  [ sample "Tesla" "Model 3" 2022 32990 12000 "Electric" "Sedan" "White"
      "San Francisco, CA" ["Autopilot"; "Heated Seats"; "Panoramic Roof"]
      "https://images.unsplash.com/photo-1552519507-da3b142c6e3d";
    sample "BMW" "X5" 2020 38950 24000 "Gasoline" "SUV" "Black"
      "New York, NY" ["xDrive AWD"; "Leather"; "HUD"]
      "https://images.unsplash.com/photo-1549924231-f129b911e442";
    sample "Toyota" "Camry" 2019 18990 36000 "Hybrid" "Sedan" "Blue"
      "Austin, TX" ["Adaptive Cruise"; "Lane Assist"]
      "https://images.unsplash.com/photo-1503376780353-7e6692767b70";
    sample "Audi" "A4" 2021 29950 18000 "Gasoline" "Sedan" "Gray"
      "Seattle, WA" ["Quattro"; "Virtual Cockpit"]
      "https://images.unsplash.com/photo-1511919884226-fd3cad34687c" ].

(** [seed_cars] *)
Definition seed_cars : M S http_error document :=
  try_except
    (samples ← for_each construct_car samples;
     inserted ← for_each (create_document "car") samples;
     mret (<["count" := VInt (Z.of_nat (length inserted))]>
             ({[ "inserted" := VList (VStr <$> inserted) ]}) : document))
    internal_error.

(** *** The routes

    FastAPI validates the body of a request against the model of the
    handler's parameter and calls the handler with the instance; a body
    that fails is answered with status 422 and the handler is not run. *)
Definition post_api_cars (body : CarBody.t) : M S http_error document :=
  match validate_car body with
  | inl errors => raise (RequestValidationError errors)
  | inr car => create_car car
  end.

Definition post_api_dealers (body : DealerBody.t) : M S http_error document :=
  match validate_dealer body with
  | inl errors => raise (RequestValidationError errors)
  | inr dealer => create_dealer dealer
  end.

Definition post_api_leads (body : LeadBody.t) : M S http_error document :=
  match validate_lead body with
  | inl errors => raise (RequestValidationError errors)
  | inr lead => create_lead lead
  end.

(** The status of the response. *)
Definition status {A} (o : outcome http_error A) : option Z :=
  match o with
  | Return _ => Some 200
  | Raise e => Some (status_of e)
  | Unmodelled => None
  end.

End main.

(** ** The rest of [schemas.py] and [main.py] *)

(** The value of a member: the one given, or the default. *)
Definition field_or {A} (d : A) (f : field A) : A :=
  match f with
  | Omitted => d
  | Given a => a
  end.

(** [class User(BaseModel)] *)
Module User.
Record t := Build {
  name : string;
  email : string;
  address : string;
  age : option Z;
  is_active : bool
}.
End User.

Module UserBody.
Record t := Build {
  name : field string;
  email : field string;
  address : field string;
  age : field (option Z);
  is_active : field bool
}.
End UserBody.

Definition validate_user (b : UserBody.t) : validated User.t :=
  inr User.Build
  <*> required "name" (UserBody.name b)
  <*> required "email" (UserBody.email b)
  <*> required "address" (UserBody.address b)
  <*> with_default None (UserBody.age b)
  <*> with_default true (UserBody.is_active b).

(** [class Product(BaseModel)] *)
Module Product.
Record t := Build {
  title : string;
  description : option string;
  price : Q;
  category : string;
  in_stock : bool
}.
End Product.

Module ProductBody.
Record t := Build {
  title : field string;
  description : field (option string);
  price : field Q;
  category : field string;
  in_stock : field bool
}.
End ProductBody.

Definition validate_product (b : ProductBody.t) : validated Product.t :=
  inr Product.Build
  <*> required "title" (ProductBody.title b)
  <*> with_default None (ProductBody.description b)
  <*> required "price" (ProductBody.price b)
  <*> required "category" (ProductBody.category b)
  <*> with_default true (ProductBody.in_stock b).

(** *** [validate_object_id] *)

Fixpoint string_forallb (f : ascii -> bool) (s : string) : bool :=
  match s with
  | "" => true
  | String c s' => f c && string_forallb f s'
  end.

Definition is_hex_digit (c : ascii) : bool :=
  match HexString.ascii_to_digit c with
  | Some _ => true
  | None => false
  end.

(** The ASCII whitespace that [bytes.fromhex] skips. *)
Definition is_ascii_space (c : ascii) : bool :=
  existsb (Nat.eqb (nat_of_ascii c)) [32; 9; 10; 11; 12; 13]%nat.

Inductive bson_error := InvalidId (oid : string).

(** [bytes.fromhex]: the bytes that the pairs of hexadecimal digits of a
    text denote.  Whitespace is skipped before a pair and at the end, not
    between the two digits of a pair; any other character, and a digit
    without its second one, make the text invalid ([None], a [ValueError]). *)
Fixpoint fromhex (s : string) : option (list N) :=
  match s with
  | "" => Some []
  | String c s' =>
      if is_ascii_space c then fromhex s'
      else
        match HexString.ascii_to_digit c, s' with
        | Some top, String c' s'' =>
            match HexString.ascii_to_digit c' with
            | Some bot => cons (16 * top + bot)%N <$> fromhex s''
            | None => None
            end
        | _, _ => None
        end
  end.

(** [bson.ObjectId(oid)] for a string: a text of another length than 24
    and a text that [bytes.fromhex] rejects give [InvalidId]; twelve bytes,
    that is 24 digits, give the identifier.  The constructor does not count
    the bytes: 24 characters with whitespace among them that [bytes.fromhex]
    accepts give an object of fewer than twelve bytes, which [ObjectId] does
    not represent here. *)
Definition parse_object_id (oid : string) : outcome bson_error ObjectId :=
  if Nat.eqb (String.length oid) 24 then
    match fromhex oid with
    | Some bytes =>
        if Nat.eqb (length bytes) 12 then Return (oid_of_str oid) else Unmodelled
    | None => Raise (InvalidId oid)
    end
  else Raise (InvalidId oid).

(** [validate_object_id]: any exception of the constructor becomes the
    answer 400. *)
Definition validate_object_id (oid : string) : outcome http_error ObjectId :=
  match parse_object_id oid with
  | Return o => Return o
  | Raise _ => Raise (HTTPException 400 "Invalid id format")
  | Unmodelled => Unmodelled
  end.

(** *** The responses of the listing routes

    The listing routes are declared with [response_model=List[dict]]:
    FastAPI serialises what the handler returns.  A date and a datetime
    become their ISO text, also inside a list; null, booleans, numbers and
    texts stay as they are; an [ObjectId] cannot be serialised, and what the
    route answers then is not modelled. *)
Fixpoint serialize (v : value) : option value :=
  match v with
  | VDate d => Some (VStr (date_isoformat d))
  | VDatetime t => Some (VStr (datetime_isoformat t))
  | VObjectId _ => None
  | VList l =>
      VList <$>
        (fix serialize_list (l : list value) : option (list value) :=
           match l with
           | [] => Some []
           | x :: l' =>
               match serialize x, serialize_list l' with
               | Some y, Some ys => Some (y :: ys)
               | _, _ => None
               end
           end) l
  | _ => Some v
  end.

Definition serialize_record (r : document) : option document :=
  if bool_decide (map_Forall (fun _ v => is_Some (serialize v)) r)
  then Some (omap serialize r) else None.

Section routes.
Context {S : Type} `{!DocumentAccess S}.

(** [GET /api/cars] and [GET /api/dealers] *)
Definition get_api_cars (make model : option string) (min_price max_price : option Q)
    (limit : option Z) : M S http_error (list document) :=
  records ← list_cars make model min_price max_price limit;
  of_option (mapM serialize_record records).

Definition get_api_dealers (limit : option Z) : M S http_error (list document) :=
  records ← list_dealers limit;
  of_option (mapM serialize_record records).

End routes.

(** A value that holds no date, no datetime and no [ObjectId]: null, a
    boolean, a number, a text, or a list of these. *)
Definition scalar (v : value) : bool :=
  match v with
  | VNone | VBool _ | VInt _ | VFloat _ | VStr _ => true
  | _ => false
  end.

Definition plain (v : value) : bool :=
  match v with
  | VList l => forallb scalar l
  | _ => scalar v
  end.

(** The members of a stored document, [_id] and [id] apart, can be
    serialised. *)
Definition json_ready (d : document) : bool :=
  bool_decide (map_Forall (fun k v => k = "_id" \/ k = "id" \/ is_Some (serialize v)) d).

(** A record of a response that publishes a stored document: [id] holds
    the text of the identifier and [_id] is gone; of the other members a
    date and a datetime are given as their ISO text, a plain value is
    unchanged, a list is serialised, and no member is added. *)
Definition published (d r : document) : Prop :=
  exists oid,
    d !! "_id" = Some (VObjectId oid) /\
    r !! "id" = Some (VStr (str_oid oid)) /\
    r !! "_id" = None /\
    forall k, k ≠ "id" -> k ≠ "_id" ->
      match d !! k with
      | None => r !! k = None
      | Some (VDate x) => r !! k = Some (VStr (date_isoformat x))
      | Some (VDatetime t) => r !! k = Some (VStr (datetime_isoformat t))
      | Some v => r !! k = serialize v /\ (plain v = true -> r !! k = Some v)
      end.

(** *** [test_database] *)

(** What [test_database] uses of [db]: the attribute [name], which the
    object may lack, and [list_collection_names()], which may raise. *)
Record db_handle := {
  db_name : option string;
  list_collection_names : pyexn + list string
}.

(** [str(e)[:50]]; a slice counts characters, so that texts outside 7-bit
    ASCII are left unmodelled. *)
Definition str50 (e : pyexn) : option string :=
  msg ← str_exn e;
  if is_ascii7 msg then Some (String.substring 0 50 msg) else None.

(** [test_database], with [db] and [os.getenv("DATABASE_URL")] as
    arguments.  Nothing in the outer [try] raises here, so that its handler
    is not reached. *)
Definition test_database (db : option db_handle) (DATABASE_URL : option string)
  : option document :=
  let response : document :=
    <["collections" := VList []]>
    (<["connection_status" := VStr "Not Connected"]>
    (<["database_name" := VNone]>
    (<["database_url" := VNone]>
    (<["database" := VStr "❌ Not Available"]>
    (<["backend" := VStr "✅ Running"]> ∅))))) in
  match db with
  | Some db =>
      let response := <["database" := VStr "✅ Available"]> response in
      let response :=
        <["database_url" :=
            VStr (if truthy (of_optional_str DATABASE_URL) then "✅ Set" else "❌ Not Set")]>
          response in
      let response :=
        <["database_name" := VStr (default "✅ Connected" (db_name db))]> response in
      let response := <["connection_status" := VStr "Connected"]> response in
      match list_collection_names db with
      | inr names =>
          let response := <["collections" := VList (VStr <$> take 10 names)]> response in
          Some (<["database" := VStr "✅ Connected & Working"]> response)
      | inl e =>
          s ← str50 e;
          Some (<["database" := VStr ("⚠️  Connected but Error: " +:+ s)]> response)
      end
  | None => Some (<["database" := VStr "⚠️  Available but not initialized"]> response)
  end.

(** ** Definitions used in the statements *)

(** A price within the bounds that are given, both included. *)
Definition in_range (lo hi : option Q) (p : Q) : bool :=
  from_option (fun l => Qle_bool l p) true lo && from_option (fun h => Qle_bool p h) true hi.


(** A text without any character that is special in a pattern. *)
Fixpoint literal (s : string) : bool :=
  match s with
  | "" => true
  | String c s' => negb (is_meta c) && literal s'
  end.

Module Seeding.
Import Database.

(** The instances that [seed_cars] constructs. *)
Definition sample_cars : list Car.t :=
  omap (fun kwargs => match validate_car kwargs with
                      | inr car => Some car
                      | inl _ => None
                      end) samples.

(** The identifiers that the store assigns to [k] documents from
    counter [n] on, and the documents as they are stored. *)
Fixpoint fresh_ids (n : N) (k : nat) : list string :=
  match k with
  | O => []
  | S k' => str_oid (Oid n) :: fresh_ids (N.succ n) k'
  end.

Fixpoint stamp (n : N) (ds : list document) : list document :=
  match ds with
  | [] => []
  | d :: ds' => <["_id" := VObjectId (Oid n)]> d :: stamp (N.succ n) ds'
  end.

Definition insert_many (kind : string) (ds : list document) (st : Store) : Store :=
  foldl (fun st d => snd (insert_one kind d st)) st ds.

(** The identifier of a stored document, as text. *)
Definition id_text (d : document) : option string := d !! "_id" ≫= py_str.

(** A document as the store keeps it: under [_id] it has the identifier
    that the store assigned. *)
Definition stored (d : document) : Prop :=
  exists oid, d !! "_id" = Some (VObjectId oid).

(** All documents of a store carry an identifier below the counter. *)
Definition well_formed (st : Store) : Prop :=
  forall kind d, d ∈ collection kind st ->
    exists oid, d !! "_id" = Some (VObjectId oid) /\ (oid_value oid < next_oid st)%N.
End Seeding.

(** ** Example data *)

Module Examples.
Import Database.

(** A connected store that holds nothing and accepts everything. *)
Definition empty_store : Store :=
  {| connected := true; collections := ∅; next_oid := 0%N;
     rejects := fun _ => None; refuses := fun _ => None |}.

(** No connection: [db is None]. *)
Definition offline_store : Store :=
  {| connected := false; collections := ∅; next_oid := 0%N;
     rejects := fun _ => None; refuses := fun _ => None |}.

Definition tesla_body : CarBody.t :=
  sample "Tesla" "Model 3" 2022 32990 12000 "Electric" "Sedan" "White"
    "San Francisco, CA" ["Autopilot"] "https://images.unsplash.com/photo-1552519507-da3b142c6e3d".

Definition old_car_body : CarBody.t :=
  sample "Benz" "Velo" 1899 2000 100 "Gasoline" "Roadster" "Black"
    "Mannheim" [] "https://example.org/velo.jpg".

Definition tesla : Car.t :=
  {| Car.make := "Tesla"; Car.model := "Model 3"; Car.year := 2022;
     Car.price := 32990; Car.mileage := Some 12000;
     Car.fuel_type := Some "Electric"; Car.transmission := Some "Automatic";
     Car.body_style := Some "Sedan"; Car.color := Some "White";
     Car.location := Some "San Francisco, CA"; Car.features := ["Autopilot"];
     Car.photos := [Url "https://images.unsplash.com/photo-1552519507-da3b142c6e3d"];
     Car.dealer_id := None; Car.listed_on := Some (Date 2024 3 9);
     Car.condition := Some "Used" |}.

Definition camry : Car.t :=
  {| Car.make := "Toyota"; Car.model := "Camry"; Car.year := 2019;
     Car.price := 18990; Car.mileage := Some 36000;
     Car.fuel_type := Some "Hybrid"; Car.transmission := Some "Automatic";
     Car.body_style := Some "Sedan"; Car.color := Some "Blue";
     Car.location := Some "Austin, TX"; Car.features := [];
     Car.photos := []; Car.dealer_id := None; Car.listed_on := None;
     Car.condition := Some "Used" |}.

Definition null_rating_body : DealerBody.t :=
  {| DealerBody.name := Given "Ada Motors"; DealerBody.email := Given "ada@example.org";
     DealerBody.phone := Omitted; DealerBody.city := Omitted;
     DealerBody.state := Omitted; DealerBody.rating := Given None |}.

Definition no_rating_body : DealerBody.t :=
  {| DealerBody.name := Given "Ada Motors"; DealerBody.email := Given "ada@example.org";
     DealerBody.phone := Omitted; DealerBody.city := Omitted;
     DealerBody.state := Omitted; DealerBody.rating := Omitted |}.

Definition ada_motors : Dealer.t :=
  {| Dealer.name := "Ada Motors"; Dealer.email := "ada@example.org";
     Dealer.phone := None; Dealer.city := None; Dealer.state := None;
     Dealer.rating := Some (9 # 2)%Q |}.

Definition a_lead : Lead.t :=
  {| Lead.car_id := "000000000000000000000000"; Lead.name := "Grace";
     Lead.email := "grace@example.org"; Lead.phone := None; Lead.message := None |}.

Definition returned {E A} (o : outcome E (list A)) : list A :=
  match o with
  | Return l => l
  | _ => []
  end.

(** The store after one car has been created in the empty store. *)
Definition one_car_store : Store := snd (create_document "car" camry empty_store).

(** The store after one call of the seed route on the empty store. *)
Definition seeded_store : Store := snd (seed_cars empty_store).

(** A dealer document that carries the time of its creation, and a store
    that holds it. *)
Definition dated_dealer : document :=
  <["created_at" := VDatetime (Datetime (Date 2024 3 9) 7 5 0 0)]>
    (<["_id" := VObjectId (Oid 7)]> (Dealer.dump ada_motors)).

Definition dated_dealer_store : Store :=
  {| connected := true; collections := {[ "dealer" := [dated_dealer]; "car" := [dated_dealer] ]};
     next_oid := 8%N; rejects := fun _ => None; refuses := fun _ => None |}.

(** [n] stored documents, and a store that holds them as one collection. *)
Definition numbered (n : nat) : list document :=
  (fun i => ({[ "_id" := VObjectId (Oid (N.of_nat i)) ]} : document)) <$> seq 0 n.

Definition crowded_store (kind : string) (n : nat) : Store :=
  {| connected := true; collections := {[ kind := numbered n ]};
     next_oid := N.of_nat n; rejects := fun _ => None; refuses := fun _ => None |}.
End Examples.

(** ** More example data *)

Module MoreExamples.
Import Database.

(** A store that rejects the cars of one make. *)
Definition picky_store : Store :=
  {| connected := true; collections := ∅; next_oid := 0%N;
     rejects := fun d =>
       match d !! "make" with
       | Some (VStr m) =>
           if String.eqb m "Toyota" then Some "Document failed validation" else None
       | _ => None
       end;
     refuses := fun _ => None |}.

(** The third sample of [seed_cars]. *)
Definition third_sample : Car.t :=
  {| Car.make := "Toyota"; Car.model := "Camry"; Car.year := 2019;
     Car.price := 18990; Car.mileage := Some 36000;
     Car.fuel_type := Some "Hybrid"; Car.transmission := Some "Automatic";
     Car.body_style := Some "Sedan"; Car.color := Some "Blue";
     Car.location := Some "Austin, TX";
     Car.features := ["Adaptive Cruise"; "Lane Assist"];
     Car.photos := [Url "https://images.unsplash.com/photo-1503376780353-7e6692767b70"];
     Car.dealer_id := None; Car.listed_on := None; Car.condition := Some "Used" |}.

(** A document whose identifier is the number zero, and one without. *)
Definition zero_id_document : document :=
  <["_id" := VInt 0]> (<["seen" := VDate (Date 2024 3 9)]> ({[ "name" := VStr "Ada Motors" ]})).

Definition stored_document : document :=
  <["_id" := VObjectId (Oid 255)]>
    (<["id" := VStr "mine"]> (<["seen" := VDate (Date 2024 3 9)]> ({[ "name" := VStr "Ada Motors" ]}))).

(** A database object whose listing of collections fails. *)
Definition failing_db : db_handle :=
  {| db_name := Some "autotrader";
     list_collection_names :=
       inl (StoreError StoreUnavailable
              "connection refused: the server at db.example.org:27017 did not answer in time") |}.
End MoreExamples.

(** * Properties *)

(** ** Identifiers, dates and mappings *)

Lemma to_N_zeros (k : nat) (s : string) :
  HexString.Raw.to_N (zeros k +:+ s) 0%N = HexString.Raw.to_N s 0%N.
Proof. induction k as [|k IH]; [reflexivity|]. simpl. exact IH. Qed.

Lemma to_N_hex_digits (n : N) : HexString.Raw.to_N (hex_digits n) 0%N = n.
Proof.
  destruct n as [|p]; [reflexivity|].
  simpl. by rewrite HexString.Raw.to_N_of_pos.
Qed.

(** The hexadecimal form of an identifier reads back as the identifier. *)
Lemma oid_of_str_oid (o : ObjectId) : oid_of_str (str_oid o) = o.
Proof.
  destruct o as [n]. unfold oid_of_str, str_oid. simpl.
  by rewrite to_N_zeros, to_N_hex_digits.
Qed.

Lemma str_oid_inj (o1 o2 : ObjectId) : str_oid o1 = str_oid o2 -> o1 = o2.
Proof.
  intros Heq. rewrite <- (oid_of_str_oid o1), <- (oid_of_str_oid o2). by rewrite Heq.
Qed.

Lemma isoformat_id (v : value) : has_isoformat v = false -> isoformat v = v.
Proof. by destruct v. Qed.

(** The loop of [normalize] rewrites every value that has [isoformat]
    and no other. *)
Lemma convert_dates_fmap (d : document) : convert_dates d = isoformat <$> d.
Proof.
  apply map_eq. intros k. rewrite lookup_fmap. unfold convert_dates.
  pose (P := fun (acc m : document) =>
    forall k, acc !! k =
      match m !! k with
      | Some v => if has_isoformat v then Some (isoformat v) else d !! k
      | None => d !! k
      end).
  assert (HP : P (map_fold
    (fun k v acc => if has_isoformat v then <[k := isoformat v]> acc else acc) d d) d).
  { apply (map_fold_weak_ind P); unfold P.
    - intros j. by rewrite lookup_empty.
    - intros i x m r Hi IH j. destruct (decide (i = j)) as [->|Hne].
      + rewrite lookup_insert_eq. destruct (has_isoformat x).
        * by rewrite lookup_insert_eq.
        * by rewrite IH, Hi.
      + rewrite (lookup_insert_ne m) by done. destruct (has_isoformat x).
        * by rewrite lookup_insert_ne.
        * apply IH. }
  rewrite (HP k). destruct (d !! k) as [v|] eqn:Hk; [|done].
  simpl. destruct (has_isoformat v) eqn:Hv; [done|].
  by rewrite isoformat_id.
Qed.

Lemma lookup_set_opt_ne (k k' : string) (o : option value) (d : document) :
  k ≠ k' -> set_opt k o d !! k' = d !! k'.
Proof. intros Hne. destruct o; [by apply lookup_insert_ne|done]. Qed.

Lemma lookup_set_opt_eq (k : string) (o : option value) (d : document) :
  d !! k = None -> set_opt k o d !! k = o.
Proof. intros Hk. destruct o; [by apply lookup_insert_eq|done]. Qed.

Ltac dump_lookup :=
  repeat first
    [ rewrite lookup_set_opt_ne by done
    | rewrite lookup_insert_ne by done
    | rewrite lookup_insert_eq
    | rewrite lookup_empty ].

(** The mapping of a car has the members of the schema only. *)
Lemma car_dump_no_id (c : Car.t) :
  Car.dump c !! "_id" = None /\ Car.dump c !! "id" = None.
Proof. unfold Car.dump. split; by dump_lookup. Qed.

Lemma dealer_dump_no_id (x : Dealer.t) :
  Dealer.dump x !! "_id" = None /\ Dealer.dump x !! "id" = None.
Proof. unfold Dealer.dump. split; by dump_lookup. Qed.

(** ** Validation *)

Lemma vap_inl_l {A B} (f : validated (A -> B)) (x : validated A) :
  (exists e, f = inl e) -> exists e, f <*> x = inl e.
Proof. intros [e ->]. destruct x; simpl; eauto. Qed.

Lemma vap_inl_r {A B} (f : validated (A -> B)) (x : validated A) :
  (exists e, x = inl e) -> exists e, f <*> x = inl e.
Proof. intros [e ->]. destruct f; simpl; eauto. Qed.

Lemma vap_inr {A B} (f : validated (A -> B)) (x : validated A) (b : B) :
  f <*> x = inr b -> exists g a, f = inr g /\ x = inr a /\ b = g a.
Proof. destruct f, x; simpl; intros [= <-]; eauto. Qed.

Lemma constrained_inr {A} (loc : string) (ok : A -> bool) (v : validated A) (a : A) :
  constrained loc ok v = inr a -> v = inr a /\ ok a = true.
Proof.
  destruct v as [e|a']; simpl; [done|].
  destruct (ok a') eqn:Hok; intros [= <-]; done.
Qed.

(** A car is accepted only with its year in 1900..2100 and a price that
    is not negative. *)
Lemma validate_car_bounds (b : CarBody.t) (c : Car.t) :
  validate_car b = inr c ->
  CarBody.year b = Given (Car.year c) /\ 1900 <= Car.year c <= 2100 /\
  CarBody.price b = Given (Car.price c) /\ (0 <= Car.price c)%Q.
Proof.
  unfold validate_car. intros H.
  repeat (apply vap_inr in H as (? & ? & H & ? & ->)).
  injection H as <-. simpl.
  repeat match goal with
  | H : constrained _ _ _ = inr _ |- _ => apply constrained_inr in H as [? ?]
  end.
  repeat match goal with
  | H : required _ ?f = inr _ |- _ => destruct f eqn:?; simpl in H; [done|injection H as ->]
  end.
  unfold ge_int, le_int, ge_float in *.
  repeat match goal with
  | H : _ && _ = true |- _ => apply andb_true_iff in H as [? ?]
  end.
  repeat split; try done; try lia.
  by apply Qle_bool_iff.
Qed.

Lemma validate_dealer_rating (b : DealerBody.t) (d : Dealer.t) :
  validate_dealer b = inr d ->
  match DealerBody.rating b with
  | Omitted => Dealer.rating d = Some (9 # 2)%Q
  | Given None => Dealer.rating d = None
  | Given (Some r) => Dealer.rating d = Some r /\ (0 <= r <= 5)%Q
  end.
Proof.
  unfold validate_dealer. intros H.
  repeat (apply vap_inr in H as (? & ? & H & ? & ->)).
  injection H as <-. simpl.
  match goal with
  | H : constrained _ _ _ = inr _ |- _ => apply constrained_inr in H as [Hr Hok]
  end.
  destruct (DealerBody.rating b) as [|[r|]]; simpl in Hr; injection Hr as <-; try done.
  split; [done|]. simpl in Hok. unfold ge_float, le_float in Hok.
  apply andb_true_iff in Hok as [Hlo Hhi].
  split; by apply Qle_bool_iff.
Qed.

(** ** Handlers and the monad *)

Section handlers.
Context {S : Type} `{!DocumentAccess S}.

Lemma try_except_return {E E' A} (c : M S E A) (h : E -> M S E' A) st a st' :
  c st = (Return a, st') -> try_except c h st = (Return a, st').
Proof. unfold try_except. by intros ->. Qed.

Lemma try_except_raise {E E' A} (c : M S E A) (h : E -> M S E' A) st e st' :
  c st = (Raise e, st') -> try_except c h st = h e st'.
Proof. unfold try_except. by intros ->. Qed.

Lemma bind_return {E A B} (c : M S E A) (k : A -> M S E B) st a st' :
  c st = (Return a, st') -> (c ≫= k) st = k a st'.
Proof. unfold mbind, M_bind, bind. by intros ->. Qed.

Lemma bind_raise {E A B} (c : M S E A) (k : A -> M S E B) st e st' :
  c st = (Raise e, st') -> (c ≫= k) st = (Raise e, st').
Proof. unfold mbind, M_bind, bind. by intros ->. Qed.

Lemma internal_error_store {A} kind msg (st : S) :
  internal_error (A := A) (StoreError kind msg) st = (Raise (HTTPException 500 msg), st).
Proof. reflexivity. Qed.

(** A list comprehension over computations that neither raise nor touch
    the store returns one result per element. *)
Lemma for_each_of_option {E A B} (f : A -> option B) (xs : list A) (ys : list B) (st : S) :
  mapM f xs = Some ys ->
  for_each (E := E) (fun x => of_option (f x)) xs st = (Return ys, st).
Proof.
  revert ys. induction xs as [|x xs IH]; intros ys; simpl.
  - by intros [= <-].
  - destruct (f x) as [y|] eqn:Hy; simpl; [|done].
    destruct (mapM f xs) as [ys'|] eqn:Hys; simpl; [|done].
    intros [= <-]. unfold mbind, M_bind, bind. simpl.
    by rewrite (IH ys' eq_refl).
Qed.

Lemma for_each_of_option_inv {E A B} (f : A -> option B) (xs : list A) (ys : list B)
    (st st' : S) :
  for_each (E := E) (fun x => of_option (f x)) xs st = (Return ys, st') ->
  mapM f xs = Some ys /\ st' = st.
Proof.
  revert ys st'. induction xs as [|x xs IH]; intros ys st'; simpl.
  - by intros [= <- <-].
  - unfold mbind, M_bind, bind. destruct (f x) as [y|] eqn:Hy; simpl; [|done].
    destruct (for_each _ xs st) as [[ys'| |] st''] eqn:Hfe; simpl; try done.
    intros [= <- <-]. destruct (IH ys' st'' eq_refl) as [-> ->]. done.
Qed.

End handlers.


(** ** Request validation *)

(** C6: a car-create request whose body has year 1899 or price -1 fails
    validation, is answered with status 422, and leaves the store as it
    was, whatever the access layer is: [create_document] is not reached. *)
Theorem invalid_car_rejected_before_store {S : Type} `{!DocumentAccess S}
    (body : CarBody.t) (st : S) :
  CarBody.year body = Given 1899 \/
  (exists p, CarBody.price body = Given p /\ (p == -1)%Q) ->
  exists errors,
    validate_car body = inl errors /\
    post_api_cars body st = (Raise (RequestValidationError errors), st) /\
    status (fst (post_api_cars body st)) = Some 422.
Proof.
  intros Hbad. unfold post_api_cars.
  destruct (validate_car body) as [errors|c] eqn:Hv.
  - exists errors. done.
  - exfalso. apply validate_car_bounds in Hv as (Hy & Hyr & Hp & Hpr).
    destruct Hbad as [Hbad|(p & Hbad & Hneg)].
    + rewrite Hbad in Hy. injection Hy as Hy. lia.
    + rewrite Hbad in Hp. injection Hp as ->. rewrite Hneg in Hpr.
      by apply Qle_bool_iff in Hpr.
Qed.

Lemma invalid_car_rejected_before_store_witness :
  (CarBody.year Examples.old_car_body = Given 1899 \/
   (exists p, CarBody.price Examples.old_car_body = Given p /\ (p == -1)%Q)) /\
  exists errors,
    validate_car Examples.old_car_body = inl errors /\
    post_api_cars Examples.old_car_body Examples.empty_store
      = (Raise (RequestValidationError errors), Examples.empty_store) /\
    status (fst (post_api_cars Examples.old_car_body Examples.empty_store)) = Some 422.
Proof.
  split.
  - left. reflexivity.
  - apply (invalid_car_rejected_before_store Examples.old_car_body Examples.empty_store).
    left. reflexivity.
Defined.

(** C7, as stated, fails: a body whose rating is [null] is accepted, and
    the rating of the dealer is then [None], not a number in [0,5]. *)
Lemma dealer_rating_may_be_null :
  ~ (forall (b : DealerBody.t) (d : Dealer.t),
       validate_dealer b = inr d ->
       exists r, Dealer.rating d = Some r /\ (0 <= r <= 5)%Q).
Proof.
  intros H.
  destruct (H Examples.null_rating_body _ eq_refl) as (r & Hr & _).
  discriminate Hr.
Qed.

(** C7, amended: the rating of an accepted dealer is [None], which only an
    explicit [null] gives, or a number within [0,5]; a request that leaves
    the rating out gets 4.5. *)
Theorem dealer_rating_null_or_in_range (b : DealerBody.t) (d : Dealer.t) :
  validate_dealer b = inr d ->
  match Dealer.rating d with
  | None => DealerBody.rating b = Given None
  | Some r => (0 <= r <= 5)%Q
  end /\
  (DealerBody.rating b = Omitted -> Dealer.rating d = Some (9 # 2)%Q /\ (9 # 2 == 4.5)%Q).
Proof.
  intros Hv. apply validate_dealer_rating in Hv.
  destruct (DealerBody.rating b) as [|[r|]].
  - rewrite Hv. split; [|done]. split; by apply Qle_bool_iff.
  - destruct Hv as [-> Hr]. done.
  - rewrite Hv. done.
Qed.

Lemma dealer_rating_null_or_in_range_witness :
  validate_dealer Examples.no_rating_body = inr Examples.ada_motors /\
  (match Dealer.rating Examples.ada_motors with
   | None => DealerBody.rating Examples.no_rating_body = Given None
   | Some r => (0 <= r <= 5)%Q
   end /\
   (DealerBody.rating Examples.no_rating_body = Omitted ->
    Dealer.rating Examples.ada_motors = Some (9 # 2)%Q /\ (9 # 2 == 4.5)%Q)).
Proof.
  split.
  - reflexivity.
  - apply (dealer_rating_null_or_in_range Examples.no_rating_body Examples.ada_motors).
    reflexivity.
Defined.

(** ** Filters *)

Lemma eval_price_filter (lo hi : option Q) (fld : option value) :
  lo ≠ None \/ hi ≠ None ->
  eval_operators (price_filter lo hi) fld =
    match fld with
    | Some (VList _) => None
    | Some v => Some (from_option (in_range lo hi) false (number_of v))
    | None => Some false
    end.
Proof.
  intros Hsome.
  assert (Hre : regex_op (price_filter lo hi) fld = Some true).
  { destruct lo, hi; reflexivity. }
  assert (Hok : bool_decide (price_filter lo hi ≠ ∅ /\
                             dom (price_filter lo hi) ⊆ supported_operators) = true).
  { destruct lo, hi; try (vm_compute; reflexivity). by destruct Hsome. }
  unfold eval_operators. rewrite Hok, Hre. clear Hok Hre.
  assert (Hlo : price_filter lo hi !! "$gte" = VFloat <$> lo) by (destruct lo, hi; reflexivity).
  assert (Hhi : price_filter lo hi !! "$lte" = VFloat <$> hi) by (destruct lo, hi; reflexivity).
  rewrite Hlo, Hhi. clear Hlo Hhi. unfold in_range.
  destruct lo as [l|], hi as [h|]; try (by destruct Hsome);
    destruct fld as [[]|]; simpl; rewrite ?andb_true_r; reflexivity.
Qed.

Lemma doc_matches_true (q : query) (d : document) :
  doc_matches q d = Some true <->
  forall k c, q !! k = Some c -> eval_operators c (d !! k) = Some true.
Proof.
  unfold doc_matches. case_bool_decide as Hdef.
  - split.
    + intros [= Hb]. by apply bool_decide_eq_true_1 in Hb.
    + intros Hall. f_equal. by apply bool_decide_eq_true_2.
  - split; [done|]. intros Hall. exfalso. apply Hdef.
    intros k c Hk. rewrite (Hall k c Hk). by eexists.
Qed.

Lemma doc_matches_empty (d : document) : doc_matches ∅ d = Some true.
Proof. apply doc_matches_true. intros k c. by rewrite lookup_empty. Qed.

Lemma select_empty (docs : list document) : select ∅ docs = Some docs.
Proof.
  induction docs as [|d docs IH]; [done|].
  simpl. rewrite doc_matches_empty. simpl. by rewrite IH.
Qed.

Lemma select_spec (q : query) (docs rs : list document) :
  select q docs = Some rs ->
  sublist rs docs /\ Forall (fun r => doc_matches q r = Some true) rs.
Proof.
  revert rs. induction docs as [|d docs IH]; intros rs; simpl.
  - intros [= <-]. split; constructor.
  - destruct (doc_matches q d) as [b|] eqn:Hd; simpl; [|done].
    destruct (select q docs) as [r|]; simpl; [|done].
    intros [= <-]. destruct (IH r eq_refl) as [Hsub Hall].
    destruct b.
    + split; [by apply sublist_skip|by constructor].
    + split; [by apply sublist_cons|done].
Qed.


Lemma car_query_lookup (make model : option string) (lo hi : option Q) (k : string) :
  car_query make model lo hi !! k =
    if decide (k = "price") then
      if bool_decide (price_filter lo hi ≠ ∅) then Some (price_filter lo hi) else None
    else if decide (k = "model") then
      if truthy (of_optional_str model) then Some (anchored_regex (default "" model)) else None
    else if decide (k = "make") then
      if truthy (of_optional_str make) then Some (anchored_regex (default "" make)) else None
    else None.
Proof.
  unfold car_query.
  destruct (bool_decide (price_filter lo hi ≠ ∅)),
    (truthy (of_optional_str model)), (truthy (of_optional_str make));
    repeat case_decide; subst; try done; by dump_lookup.
Qed.

Lemma price_filter_nonempty (lo hi : option Q) :
  bool_decide (price_filter lo hi ≠ ∅) = bool_decide (lo ≠ None \/ hi ≠ None).
Proof.
  destruct lo, hi; try (vm_compute; reflexivity).
Qed.

Lemma number_of_isoformat (v : value) : number_of (isoformat v) = number_of v.
Proof. by destruct v. Qed.

(** [normalize] leaves every field but [_id] and [id] where it is, up to
    the conversion of dates. *)
Lemma publish_id_lookup (d r : document) (k : string) :
  publish_id d = Some r -> k ≠ "id" -> k ≠ "_id" -> r !! k = d !! k.
Proof.
  unfold publish_id. intros Hr Hid H_id.
  destruct (d !! "_id") as [v|].
  - destruct (truthy v).
    + destruct (py_str v) as [s|]; simpl in Hr; [|done]. injection Hr as <-.
      rewrite lookup_insert_ne by done. by rewrite lookup_delete_ne.
    + injection Hr as <-. by rewrite lookup_insert_ne.
  - injection Hr as <-. by rewrite lookup_insert_ne.
Qed.

Lemma normalize_car_lookup (d r : document) (k : string) :
  normalize_car d = Some r -> k ≠ "id" -> k ≠ "_id" -> r !! k = isoformat <$> d !! k.
Proof.
  unfold normalize_car. intros Hr Hid H_id.
  destruct (publish_id d) as [d'|] eqn:Hd; simpl in Hr; [|done].
  injection Hr as <-. rewrite convert_dates_fmap, lookup_fmap.
  by rewrite (publish_id_lookup d d' k Hd).
Qed.

(** ** Listing with the modelled store *)

Section listing.
Import Database.

Lemma get_documents_return kind q limit (st st' : Store) docs :
  get_documents kind q limit st = (Return docs, st') ->
  st' = st /\ 0 <= limit /\
  exists sel, select q (collection kind st) = Some sel /\
              docs = take (Z.to_nat limit) sel.
Proof.
  unfold get_documents. destruct (connected st); [|done].
  destruct (refuses st q); [done|].
  destruct (Z.ltb_spec limit 0) as [Hneg|Hpos]; [done|].
  destruct (select q (collection kind st)) as [sel|]; [|done].
  intros [= <- <-]. eauto.
Qed.

Lemma list_cars_return make model lo hi limit (st st' : Store) rs :
  list_cars make model lo hi limit st = (Return rs, st') ->
  st' = st /\ 0 <= default 20 limit /\
  exists sel,
    select (car_query make model lo hi) (collection "car" st) = Some sel /\
    mapM normalize_car (take (Z.to_nat (default 20 limit)) sel) = Some rs.
Proof.
  unfold list_cars, try_except, mbind, M_bind, bind. simpl.
  destruct (get_documents "car" _ _ st) as [[docs|e|] st1] eqn:Hget.
  - apply get_documents_return in Hget as (-> & Hlim & sel & Hsel & ->).
    destruct (for_each _ _ st) as [[rs'|e|] st2] eqn:Hfe.
    + apply for_each_of_option_inv in Hfe as [Hmap ->].
      intros [= <- <-]. eauto.
    + unfold internal_error, mbind, M_bind, bind.
      destruct (of_option (str_exn e) st2) as [[?| |] ?]; done.
    + done.
  - unfold internal_error, mbind, M_bind, bind.
    destruct (of_option (str_exn e) st1) as [[?| |] ?]; done.
  - done.
Qed.

Lemma list_dealers_return limit (st st' : Store) rs :
  list_dealers limit st = (Return rs, st') ->
  st' = st /\ 0 <= default 50 limit /\
  mapM normalize_dealer (take (Z.to_nat (default 50 limit)) (collection "dealer" st)) = Some rs.
Proof.
  unfold list_dealers, try_except, mbind, M_bind, bind. simpl.
  destruct (get_documents "dealer" _ _ st) as [[docs|e|] st1] eqn:Hget.
  - apply get_documents_return in Hget as (-> & Hlim & sel & Hsel & ->).
    rewrite select_empty in Hsel. injection Hsel as <-.
    destruct (for_each _ _ st) as [[rs'|e|] st2] eqn:Hfe.
    + apply for_each_of_option_inv in Hfe as [Hmap ->].
      intros [= <- <-]. eauto.
    + unfold internal_error, mbind, M_bind, bind.
      destruct (of_option (str_exn e) st2) as [[?| |] ?]; done.
    + done.
  - unfold internal_error, mbind, M_bind, bind.
    destruct (of_option (str_exn e) st1) as [[?| |] ?]; done.
  - done.
Qed.

End listing.

Lemma mapM_elem_of {A B} (f : A -> option B) (l : list A) (k : list B) (y : B) :
  mapM f l = Some k -> y ∈ k -> exists x, x ∈ l /\ f x = Some y.
Proof.
  intros Hm Hy. apply mapM_Some_1 in Hm.
  apply list_elem_of_lookup in Hy as [i Hi].
  destruct (Forall2_lookup_r _ _ _ _ _ Hm Hi) as (x & Hx & Hf).
  exists x. split; [|done]. apply list_elem_of_lookup. eauto.
Qed.

Lemma in_range_spec (lo hi : option Q) (p : Q) :
  in_range lo hi p = true <->
  (forall l, lo = Some l -> (l <= p)%Q) /\ (forall h, hi = Some h -> (p <= h)%Q).
Proof.
  unfold in_range. rewrite andb_true_iff. split.
  - intros [Hlo Hhi]. split.
    + intros l ->. by apply Qle_bool_iff.
    + intros h ->. by apply Qle_bool_iff.
  - intros [Hlo Hhi]. split.
    + destruct lo as [l|]; [|done]. apply Qle_bool_iff. by apply Hlo.
    + destruct hi as [h|]; [|done]. apply Qle_bool_iff. by apply Hhi.
Qed.

(** A price filter holds of the documents whose price is a number within
    the bounds, both included. *)
Lemma eval_price_filter_true (lo hi : option Q) (fld : option value) :
  lo ≠ None \/ hi ≠ None ->
  eval_operators (price_filter lo hi) fld = Some true ->
  exists v p, fld = Some v /\ number_of v = Some p /\
    (forall l, lo = Some l -> (l <= p)%Q) /\ (forall h, hi = Some h -> (p <= h)%Q).
Proof.
  intros Hsome. rewrite eval_price_filter by done.
  destruct fld as [v|]; [|done].
  destruct (number_of v) as [p|] eqn:Hp.
  - destruct v; try done; simpl; intros [= Hr]; apply in_range_spec in Hr; eauto.
  - destruct v; done.
Qed.

(** The fields of the filter of [list_cars] are combined by conjunction. *)
Lemma car_query_matches (make model : option string) (lo hi : option Q) (d : document) :
  doc_matches (car_query make model lo hi) d = Some true <->
  (truthy (of_optional_str make) = true ->
     eval_operators (anchored_regex (default "" make)) (d !! "make") = Some true) /\
  (truthy (of_optional_str model) = true ->
     eval_operators (anchored_regex (default "" model)) (d !! "model") = Some true) /\
  (lo ≠ None \/ hi ≠ None ->
     eval_operators (price_filter lo hi) (d !! "price") = Some true).
Proof.
  rewrite doc_matches_true. split.
  - intros Hall. repeat split.
    + intros Hmk. apply Hall. rewrite car_query_lookup. simpl. by rewrite Hmk.
    + intros Hmd. apply Hall. rewrite car_query_lookup. simpl. by rewrite Hmd.
    + intros Hpr. apply Hall. rewrite car_query_lookup, price_filter_nonempty. simpl.
      by rewrite bool_decide_eq_true_2.
  - intros (Hmk & Hmd & Hpr) k c. rewrite car_query_lookup, price_filter_nonempty.
    repeat case_decide; subst.
    + case_bool_decide; [|done]. intros [= <-]. by apply Hpr.
    + destruct (truthy (of_optional_str model)); [|done]. intros [= <-]. by apply Hmd.
    + destruct (truthy (of_optional_str make)); [|done]. intros [= <-]. by apply Hmk.
    + done.
Qed.

Lemma car_query_no_filter : car_query None None None None = ∅.
Proof. reflexivity. Qed.

Section price_range.
Import Database.

(** C3: the price bounds that are given make one inclusive range on
    [price], so that only records whose price lies within the bounds are
    returned; with no bound there is no constraint on [price], and with no
    argument at all the listing is not filtered; the fields of the filter
    are combined by conjunction. *)
Theorem price_bounds_form_one_inclusive_range
    (make model : option string) (lo hi : option Q) (limit : option Z)
    (st st' : Store) (rs : list document) :
  list_cars make model lo hi limit st = (Return rs, st') ->
  car_query make model lo hi !! "price" =
    (if bool_decide (lo ≠ None \/ hi ≠ None) then Some (price_filter lo hi) else None) /\
  price_filter lo hi !! "$gte" = VFloat <$> lo /\
  price_filter lo hi !! "$lte" = VFloat <$> hi /\
  (lo ≠ None \/ hi ≠ None ->
   forall r, r ∈ rs ->
     exists v p, r !! "price" = Some v /\ number_of v = Some p /\
       (forall l, lo = Some l -> (l <= p)%Q) /\ (forall h, hi = Some h -> (p <= h)%Q)) /\
  (make = None -> model = None -> lo = None -> hi = None ->
   mapM normalize_car (take (Z.to_nat (default 20 limit)) (collection "car" st)) = Some rs) /\
  (forall d, doc_matches (car_query make model lo hi) d = Some true <->
     (truthy (of_optional_str make) = true ->
        eval_operators (anchored_regex (default "" make)) (d !! "make") = Some true) /\
     (truthy (of_optional_str model) = true ->
        eval_operators (anchored_regex (default "" model)) (d !! "model") = Some true) /\
     (lo ≠ None \/ hi ≠ None ->
        eval_operators (price_filter lo hi) (d !! "price") = Some true)).
Proof.
  intros Hrun. apply list_cars_return in Hrun as (-> & Hlim & sel & Hsel & Hmap).
  split; [|split; [|split; [|split; [|split]]]].
  - rewrite car_query_lookup, price_filter_nonempty. done.
  - destruct lo, hi; reflexivity.
  - destruct lo, hi; reflexivity.
  - intros Hsome r Hr.
    destruct (mapM_elem_of _ _ _ _ Hmap Hr) as (d & Hd & Hnorm).
    apply select_spec in Hsel as [Hsub Hall].
    assert (Hmatch : doc_matches (car_query make model lo hi) d = Some true).
    { apply (proj1 (Forall_forall _ _) Hall d). by eapply subseteq_take. }
    apply car_query_matches in Hmatch as (_ & _ & Hprice).
    destruct (eval_price_filter_true lo hi _ Hsome (Hprice Hsome))
      as (v & p & Hv & Hp & Hlo & Hhi).
    exists (isoformat v), p. rewrite number_of_isoformat.
    rewrite (normalize_car_lookup d r "price" Hnorm) by done.
    rewrite Hv. done.
  - intros -> -> -> ->. rewrite car_query_no_filter, select_empty in Hsel.
    by injection Hsel as <-.
  - intros d. apply car_query_matches.
Qed.

End price_range.

(** ** Normalisation of stored documents *)

Lemma publish_id_stored (d : document) (oid : ObjectId) :
  d !! "_id" = Some (VObjectId oid) ->
  publish_id d = Some (<["id" := VStr (str_oid oid)]> (delete "_id" d)).
Proof. unfold publish_id. by intros ->. Qed.

Lemma normalize_car_stored (d : document) (oid : ObjectId) :
  d !! "_id" = Some (VObjectId oid) ->
  normalize_car d = Some (<["id" := VStr (str_oid oid)]> (isoformat <$> delete "_id" d)).
Proof.
  intros Hid. unfold normalize_car. rewrite (publish_id_stored d oid Hid). simpl.
  by rewrite convert_dates_fmap, fmap_insert.
Qed.

Section limits.
Import Database.

Lemma get_documents_run kind q limit (st : Store) sel :
  connected st = true -> refuses st q = None -> 0 <= limit ->
  select q (collection kind st) = Some sel ->
  get_documents kind q limit st = (Return (take (Z.to_nat limit) sel), st).
Proof.
  intros Hc Hq Hl Hsel. unfold get_documents. rewrite Hc, Hq, Hsel.
  destruct (Z.ltb_spec limit 0); [lia|done].
Qed.

Lemma list_cars_run make model lo hi limit (st : Store) sel rs :
  connected st = true -> refuses st (car_query make model lo hi) = None ->
  0 <= default 20 limit ->
  select (car_query make model lo hi) (collection "car" st) = Some sel ->
  mapM normalize_car (take (Z.to_nat (default 20 limit)) sel) = Some rs ->
  list_cars make model lo hi limit st = (Return rs, st).
Proof.
  intros Hc Hq Hl Hsel Hmap. unfold list_cars.
  apply try_except_return.
  rewrite (bind_return _ _ st _ st (get_documents_run _ _ _ st sel Hc Hq Hl Hsel)).
  by apply for_each_of_option.
Qed.

Lemma list_dealers_run limit (st : Store) rs :
  connected st = true -> refuses st ∅ = None -> 0 <= default 50 limit ->
  mapM normalize_dealer (take (Z.to_nat (default 50 limit)) (collection "dealer" st)) = Some rs ->
  list_dealers limit st = (Return rs, st).
Proof.
  intros Hc Hq Hl Hmap. unfold list_dealers.
  apply try_except_return.
  rewrite (bind_return _ _ st _ st
    (get_documents_run _ _ _ st _ Hc Hq Hl (select_empty _))).
  by apply for_each_of_option.
Qed.

Lemma stored_is_normalized (docs : list document) :
  Forall Seeding.stored docs ->
  (exists rs, mapM normalize_car docs = Some rs /\ length rs = length docs) /\
  (exists rs, mapM normalize_dealer docs = Some rs /\ length rs = length docs).
Proof.
  intros Hall. split.
  - assert (Hs : is_Some (mapM normalize_car docs)).
    { apply mapM_is_Some. eapply Forall_impl; [exact Hall|].
      intros d [oid Hd]. simpl. rewrite (normalize_car_stored d oid Hd). by eexists. }
    destruct Hs as [rs Hrs]. exists rs. split; [done|].
    symmetry. by eapply length_mapM.
  - assert (Hs : is_Some (mapM normalize_dealer docs)).
    { apply mapM_is_Some. eapply Forall_impl; [exact Hall|].
      intros d [oid Hd]. simpl. unfold normalize_dealer.
      rewrite (publish_id_stored d oid Hd). by eexists. }
    destruct Hs as [rs Hrs]. exists rs. split; [done|].
    symmetry. by eapply length_mapM.
Qed.

Lemma crowded_store_stored (kind : string) (n : nat) :
  collection kind (Examples.crowded_store kind n) = Examples.numbered n /\
  length (Examples.numbered n) = n /\
  Forall Seeding.stored (Examples.numbered n).
Proof.
  split; [|split].
  - unfold collection, Examples.crowded_store. simpl. by rewrite lookup_singleton_eq.
  - unfold Examples.numbered. by rewrite length_fmap, length_seq.
  - unfold Examples.numbered. apply Forall_fmap, Forall_forall. intros i _. simpl.
    eexists. apply lookup_singleton_eq.
Qed.

(** C5: [get_documents] returns at most [limit] records and none for
    [limit = 0]; so do the listings, whose limit is 20 for cars and 50
    for dealers when the caller gives none; the handlers put no bound on
    the limit: any number of records can be listed. *)
Theorem listings_capped_by_limit
    (kind : string) (q : query) (limit : Z) (st st' : Store) (docs : list document) :
  get_documents kind q limit st = (Return docs, st') ->
  Z.of_nat (length docs) <= limit /\ (limit = 0 -> docs = []) /\ st' = st /\
  (forall make model lo hi lim rs,
      list_cars make model lo hi lim st = (Return rs, st') ->
      Z.of_nat (length rs) <= default 20 lim) /\
  (forall lim rs,
      list_dealers lim st = (Return rs, st') ->
      Z.of_nat (length rs) <= default 50 lim) /\
  (forall make model lo hi,
      list_cars make model lo hi None st = list_cars make model lo hi (Some 20) st) /\
  list_dealers None st = list_dealers (Some 50) st /\
  (forall n : nat, exists rs,
      list_cars None None None None (Some (Z.of_nat n)) (Examples.crowded_store "car" n)
        = (Return rs, Examples.crowded_store "car" n) /\ length rs = n) /\
  (forall n : nat, exists rs,
      list_dealers (Some (Z.of_nat n)) (Examples.crowded_store "dealer" n)
        = (Return rs, Examples.crowded_store "dealer" n) /\ length rs = n).
Proof.
  intros Hget. apply get_documents_return in Hget as (-> & Hlim & sel & Hsel & ->).
  assert (Hcap : forall (l : list document) z, 0 <= z ->
            Z.of_nat (length (take (Z.to_nat z) l)) <= z).
  { intros l z Hz. rewrite length_take. lia. }
  split; [by apply Hcap|]. split; [by intros ->|]. split; [done|].
  split; [|split; [|split; [|split; [|split]]]].
  - intros make model lo hi lim rs Hrun.
    apply list_cars_return in Hrun as (_ & Hl & sel' & _ & Hmap).
    apply length_mapM in Hmap. rewrite <- Hmap. by apply Hcap.
  - intros lim rs Hrun.
    apply list_dealers_return in Hrun as (_ & Hl & Hmap).
    apply length_mapM in Hmap. rewrite <- Hmap. by apply Hcap.
  - reflexivity.
  - reflexivity.
  - intros n. destruct (crowded_store_stored "car" n) as (Hcol & Hlen & Hst).
    destruct (stored_is_normalized _ Hst) as [(rs & Hrs & Hrl) _].
    exists rs. split; [|lia].
    apply (list_cars_run None None None None _ _ (Examples.numbered n)); try done.
    + simpl. lia.
    + rewrite car_query_no_filter, Hcol. apply select_empty.
    + simpl. rewrite take_ge by lia. done.
  - intros n. destruct (crowded_store_stored "dealer" n) as (Hcol & Hlen & Hst).
    destruct (stored_is_normalized _ Hst) as [_ (rs & Hrs & Hrl)].
    exists rs. split; [|lia].
    apply list_dealers_run; try done.
    + simpl. lia.
    + simpl. rewrite Hcol, take_ge by lia. done.
Qed.

End limits.

(** ** Absent arguments of the car listing *)

Lemma car_query_price (make model : option string) (lo hi : option Q) :
  car_query make model lo hi !! "price" =
    if bool_decide (lo ≠ None \/ hi ≠ None) then Some (price_filter lo hi) else None.
Proof. rewrite car_query_lookup, price_filter_nonempty. done. Qed.

(** C10: an empty [make] or [model] gives the filter of an absent one,
    whereas a price bound of zero is a bound: only [None] leaves a bound
    out, and with neither bound the filter has no [price]. *)
Theorem empty_text_is_absent_zero_bound_is_kept
    (make model : option string) (lo hi : option Q) :
  car_query (Some "") model lo hi = car_query None model lo hi /\
  car_query make (Some "") lo hi = car_query make None lo hi /\
  car_query (Some "") (Some "") None None = ∅ /\
  (exists c, car_query make model (Some 0%Q) hi !! "price" = Some c /\
             c !! "$gte" = Some (VFloat 0)) /\
  (exists c, car_query make model lo (Some 0%Q) !! "price" = Some c /\
             c !! "$lte" = Some (VFloat 0)) /\
  car_query make model None None !! "price" = None /\
  (forall d, doc_matches (car_query make model (Some 0%Q) hi) d = Some true ->
     exists v p, d !! "price" = Some v /\ number_of v = Some p /\ (0 <= p)%Q) /\
  (forall d, doc_matches (car_query make model lo (Some 0%Q)) d = Some true ->
     exists v p, d !! "price" = Some v /\ number_of v = Some p /\ (p <= 0)%Q).
Proof.
  split; [reflexivity|]. split; [reflexivity|]. split; [reflexivity|].
  split; [|split; [|split; [|split]]].
  - exists (price_filter (Some 0%Q) hi). split.
    + rewrite car_query_price. case_bool_decide as Hb; [done|].
      exfalso. apply Hb. by left.
    + by destruct hi.
  - exists (price_filter lo (Some 0%Q)). split.
    + rewrite car_query_price. case_bool_decide as Hb; [done|].
      exfalso. apply Hb. by right.
    + by destruct lo.
  - rewrite car_query_price. reflexivity.
  - intros d Hd. apply car_query_matches in Hd as (_ & _ & Hp).
    assert (Hsome : Some 0%Q ≠ None \/ hi ≠ None) by (by left).
    destruct (eval_price_filter_true _ _ _ Hsome (Hp Hsome)) as (v & p & Hv & Hn & Hlo & _).
    exists v, p. eauto.
  - intros d Hd. apply car_query_matches in Hd as (_ & _ & Hp).
    assert (Hsome : lo ≠ None \/ Some 0%Q ≠ None) by (by right).
    destruct (eval_price_filter_true _ _ _ Hsome (Hp Hsome)) as (v & p & Hv & Hn & _ & Hhi).
    exists v, p. eauto.
Qed.

(** ** Failures of the store *)

(** C8: when [create_document] raises a failure of the store, whatever its
    kind and message, each create handler answers with status 500 and the
    message of the failure as its detail; the handler returns normally with
    that answer. *)
Theorem create_handlers_answer_500 {S : Type} `{!DocumentAccess S}
    (st st' : S) (kind : error_kind) (msg : string) :
  (forall car,
      create_document "car" car st = (Raise (StoreError kind msg), st') ->
      create_car car st = (Raise (HTTPException 500 msg), st') /\
      status (fst (create_car car st)) = Some 500) /\
  (forall dealer,
      create_document "dealer" dealer st = (Raise (StoreError kind msg), st') ->
      create_dealer dealer st = (Raise (HTTPException 500 msg), st') /\
      status (fst (create_dealer dealer st)) = Some 500) /\
  (forall lead,
      create_document "lead" lead st = (Raise (StoreError kind msg), st') ->
      create_lead lead st = (Raise (HTTPException 500 msg), st') /\
      status (fst (create_lead lead st)) = Some 500).
Proof.
  assert (Hgen : forall {A} `{BaseModel A} (k : string) (x : A),
    create_document k x st = (Raise (StoreError kind msg), st') ->
    try_except
      (new_id ← create_document k x; mret ({[ "id" := VStr new_id ]} : document))
      internal_error st = (Raise (HTTPException 500 msg), st')).
  { intros A HA k x Hfail.
    rewrite (try_except_raise _ _ st (StoreError kind msg) st').
    - apply internal_error_store.
    - by apply bind_raise. }
  split; [|split].
  - intros car Hfail. unfold create_car. by rewrite (Hgen _ _ _ _ Hfail).
  - intros dealer Hfail. unfold create_dealer. by rewrite (Hgen _ _ _ _ Hfail).
  - intros lead Hfail. unfold create_lead. by rewrite (Hgen _ _ _ _ Hfail).
Qed.

Lemma create_handlers_answer_500_witness :
  create_document "car" Examples.camry Examples.offline_store
    = (Raise (StoreError StoreUnavailable "Database not available"), Examples.offline_store) /\
  create_car Examples.camry Examples.offline_store
    = (Raise (HTTPException 500 "Database not available"), Examples.offline_store) /\
  status (fst (create_car Examples.camry Examples.offline_store)) = Some 500.
Proof.
  split.
  - reflexivity.
  - apply (proj1 (create_handlers_answer_500 Examples.offline_store Examples.offline_store
                    StoreUnavailable "Database not available")).
    reflexivity.
Defined.

(** ** Seeding *)

Section seeding.
Import Database Seeding.

Lemma create_document_run {A} `{BaseModel A} kind (x : A) (st : Store) :
  connected st = true -> rejects st (model_dump x) = None ->
  create_document kind x st
    = (Return (str_oid (Oid (next_oid st))), snd (insert_one kind (model_dump x) st)).
Proof. intros Hc Hr. unfold create_document. by rewrite Hc, Hr. Qed.

Lemma for_each_create {A} `{BaseModel A} kind (xs : list A) (st : Store) :
  connected st = true ->
  Forall (fun x => rejects st (model_dump x) = None) xs ->
  for_each ((fun x => Database.create_document kind x)) xs st
    = (Return (fresh_ids (next_oid st) (length xs)),
       insert_many kind (model_dump <$> xs) st).
Proof.
  revert st. induction xs as [|x xs IH]; intros st Hc Hall; [done|].
  apply Forall_cons in Hall as [Hx Hxs]. simpl.
  unfold mbind, M_bind, bind.
  change ((fun x => Database.create_document kind x) x st) with (create_document kind x st).
  rewrite (create_document_run kind x st Hc Hx).
  rewrite IH; [done|done|done].
Qed.

Lemma insert_many_spec kind (ds : list document) (st : Store) :
  collection kind (insert_many kind ds st) = (collection kind st ++ stamp (next_oid st) ds)%list /\
  next_oid (insert_many kind ds st) = (next_oid st + N.of_nat (length ds))%N /\
  connected (insert_many kind ds st) = connected st /\
  rejects (insert_many kind ds st) = rejects st /\
  refuses (insert_many kind ds st) = refuses st.
Proof.
  revert st. induction ds as [|d ds IH]; intros st.
  - simpl. rewrite app_nil_r. repeat split. lia.
  - simpl. destruct (IH (snd (insert_one kind d st))) as (Hcol & Hn & Hc & Hr & Hq).
    unfold insert_many in *. simpl in *.
    rewrite Hcol, Hn, Hc, Hr, Hq. repeat split; try done.
    + unfold collection at 1. simpl. rewrite lookup_insert_eq. simpl.
      by rewrite <- app_assoc.
    + lia.
Qed.

Lemma fresh_ids_length (n : N) (k : nat) : length (fresh_ids n k) = k.
Proof. revert n. induction k as [|k IH]; intros n; simpl; [done|]. by rewrite IH. Qed.

Lemma fresh_ids_app (n : N) (a b : nat) :
  fresh_ids n (a + b) = (fresh_ids n a ++ fresh_ids (n + N.of_nat a) b)%list.
Proof.
  revert n. induction a as [|a IH]; intros n; simpl.
  - by rewrite N.add_0_r.
  - rewrite IH. do 3 f_equal. lia.
Qed.

Lemma fresh_ids_elem (n : N) (k : nat) (s : string) :
  s ∈ fresh_ids n k -> exists m, (n <= m)%N /\ s = str_oid (Oid m).
Proof.
  revert n. induction k as [|k IH]; intros n; simpl.
  - by intros ?%elem_of_nil.
  - intros [->|Hs]%elem_of_cons.
    + exists n. split; [lia|done].
    + destruct (IH _ Hs) as (m & Hm & ->). exists m. split; [lia|done].
Qed.

(** The identifiers that the store assigns are pairwise distinct. *)
Lemma fresh_ids_NoDup (n : N) (k : nat) : NoDup (fresh_ids n k).
Proof.
  revert n. induction k as [|k IH]; intros n; simpl; constructor; [|apply IH].
  intros (m & Hm & Heq)%fresh_ids_elem.
  apply str_oid_inj in Heq. injection Heq as ->. lia.
Qed.

Lemma stamp_length (n : N) (ds : list document) : length (stamp n ds) = length ds.
Proof. revert n. induction ds as [|d ds IH]; intros n; simpl; [done|]. by rewrite IH. Qed.

Lemma stamp_app (n : N) (ds ds' : list document) :
  stamp n (ds ++ ds') = (stamp n ds ++ stamp (n + N.of_nat (length ds)) ds')%list.
Proof.
  revert n. induction ds as [|d ds IH]; intros n; simpl.
  - by rewrite N.add_0_r.
  - rewrite IH. do 3 f_equal. lia.
Qed.

Lemma id_text_stamped (o : ObjectId) (d : document) :
  id_text (<["_id" := VObjectId o]> d) = Some (str_oid o).
Proof. unfold id_text. by rewrite lookup_insert_eq. Qed.

Lemma stamp_ids (n : N) (ds : list document) :
  mapM id_text (stamp n ds) = Some (fresh_ids n (length ds)).
Proof.
  revert n. induction ds as [|d ds IH]; intros n; simpl; [done|].
  rewrite id_text_stamped. simpl. by rewrite IH.
Qed.

Lemma stamp_data (n : N) (ds : list document) :
  Forall (fun d => d !! "_id" = None) ds -> delete "_id" <$> stamp n ds = ds.
Proof.
  revert n. induction ds as [|d ds IH]; intros n Hall; simpl; [done|].
  apply Forall_cons in Hall as [Hd Hds].
  rewrite IH by done. f_equal. rewrite delete_insert_eq. by apply delete_id.
Qed.

Lemma sample_cars_constructed (st : Store) :
  for_each construct_car samples st = (Return sample_cars, st) /\ length sample_cars = 4%nat.
Proof. split; reflexivity. Qed.

Lemma seed_cars_run (st : Store) :
  connected st = true ->
  Forall (fun c => rejects st (Car.dump c) = None) sample_cars ->
  seed_cars st
    = (Return (<["count" := VInt 4]>
                 ({[ "inserted" := VList (VStr <$> fresh_ids (next_oid st) 4) ]})),
       insert_many "car" (Car.dump <$> sample_cars) st).
Proof.
  intros Hc Hall. unfold seed_cars. apply try_except_return.
  change (Forall (fun x : Car.t => rejects st (model_dump x) = None) sample_cars) in Hall.
  rewrite (bind_return _ _ st _ st (proj1 (sample_cars_constructed st))).
  rewrite (bind_return _ _ st _ _ (for_each_create "car" sample_cars st Hc Hall)).
  reflexivity.
Qed.

(** C9: on a connected store that accepts the four sample documents,
    each call of the seed operation inserts four car documents and returns
    their identifiers with a count of four; after two calls the collection
    has grown by eight documents, which carry eight distinct identifiers
    and hold the sample data twice. *)
Theorem seed_twice_inserts_eight (st : Store) :
  connected st = true ->
  Forall (fun c => rejects st (Car.dump c) = None) sample_cars ->
  exists ids1 ids2 st1 st2 docs1 docs2,
    seed_cars st
      = (Return (<["count" := VInt 4]> ({[ "inserted" := VList (VStr <$> ids1) ]})), st1) /\
    seed_cars st1
      = (Return (<["count" := VInt 4]> ({[ "inserted" := VList (VStr <$> ids2) ]})), st2) /\
    length ids1 = 4%nat /\ length ids2 = 4%nat /\
    NoDup (ids1 ++ ids2) /\
    collection "car" st1 = (collection "car" st ++ docs1)%list /\
    collection "car" st2 = (collection "car" st ++ docs1 ++ docs2)%list /\
    length docs1 = 4%nat /\ length docs2 = 4%nat /\
    mapM id_text (docs1 ++ docs2) = Some (ids1 ++ ids2)%list /\
    NoDup (docs1 ++ docs2) /\
    delete "_id" <$> docs1 = Car.dump <$> sample_cars /\
    delete "_id" <$> docs2 = Car.dump <$> sample_cars.
Proof.
  intros Hc Hall.
  set (data := Car.dump <$> sample_cars).
  set (st1 := insert_many "car" data st).
  destruct (insert_many_spec "car" data st) as (Hcol1 & Hn1 & Hc1 & Hr1 & _).
  destruct (insert_many_spec "car" data st1) as (Hcol2 & _).
  fold st1 in Hcol1, Hn1, Hc1, Hr1.
  assert (Hlen : length data = 4%nat) by reflexivity.
  assert (Hdata : Forall (fun d : document => d !! "_id" = None) data).
  { apply Forall_fmap, Forall_forall. intros c _. apply car_dump_no_id. }
  assert (Hids : mapM id_text (stamp (next_oid st) (data ++ data))
                 = Some (fresh_ids (next_oid st) (4 + 4))).
  { rewrite stamp_ids, length_app, Hlen. done. }
  rewrite stamp_app, fresh_ids_app, Hlen in Hids.
  change (N.of_nat 4) with 4%N in *.
  exists (fresh_ids (next_oid st) 4), (fresh_ids (next_oid st + 4)%N 4),
    st1, (insert_many "car" data st1),
    (stamp (next_oid st) data), (stamp (next_oid st + 4)%N data).
  split; [by apply seed_cars_run|].
  split.
  { rewrite (seed_cars_run st1); [by rewrite Hn1, Hlen| by rewrite Hc1 | by rewrite Hr1]. }
  rewrite !fresh_ids_length, !stamp_length, !stamp_data by done.
  repeat split; try done.
  - rewrite <- fresh_ids_app. apply fresh_ids_NoDup.
  - rewrite Hcol2, Hcol1, Hn1, Hlen. by rewrite <- app_assoc.
  - apply (NoDup_fmap_1 id_text).
    apply mapM_Some_1 in Hids.
    assert (Heq : id_text <$> (stamp (next_oid st) data ++ stamp (next_oid st + 4)%N data)%list
                  = Some <$> (fresh_ids (next_oid st) 4 ++ fresh_ids (next_oid st + 4)%N 4)%list).
    { clear -Hids. induction Hids as [|x y l k Hxy _ IH]; [done|].
      rewrite !fmap_cons. by rewrite Hxy, IH. }
    rewrite Heq. apply (NoDup_fmap_2 Some).
    rewrite <- fresh_ids_app. apply fresh_ids_NoDup.
Qed.

End seeding.

Lemma seed_twice_inserts_eight_witness :
  Database.connected Examples.empty_store = true /\
  exists ids1 ids2 st1 st2 docs1 docs2,
    seed_cars Examples.empty_store
      = (Return (<["count" := VInt 4]> ({[ "inserted" := VList (VStr <$> ids1) ]})), st1) /\
    seed_cars st1
      = (Return (<["count" := VInt 4]> ({[ "inserted" := VList (VStr <$> ids2) ]})), st2) /\
    length ids1 = 4%nat /\ length ids2 = 4%nat /\
    NoDup (ids1 ++ ids2) /\
    Database.collection "car" st1 = (Database.collection "car" Examples.empty_store ++ docs1)%list /\
    Database.collection "car" st2
      = (Database.collection "car" Examples.empty_store ++ docs1 ++ docs2)%list /\
    length docs1 = 4%nat /\ length docs2 = 4%nat /\
    mapM Seeding.id_text (docs1 ++ docs2) = Some (ids1 ++ ids2)%list /\
    NoDup (docs1 ++ docs2) /\
    delete "_id" <$> docs1 = Car.dump <$> Seeding.sample_cars /\
    delete "_id" <$> docs2 = Car.dump <$> Seeding.sample_cars.
Proof.
  split; [reflexivity|].
  apply (seed_twice_inserts_eight Examples.empty_store); [reflexivity|].
  repeat constructor.
Defined.

(** ** Create, then list *)

Lemma set_opt_lookup_Some (k k' : string) (o : option value) (d : document) (v : value) :
  set_opt k o d !! k' = Some v -> (k = k' /\ o = Some v) \/ d !! k' = Some v.
Proof.
  destruct o as [x|]; simpl; [|by right].
  intros [[-> ->]|[_ H]]%lookup_insert_Some; [by left|by right].
Qed.

(** Of the members of a car only [listed_on] holds a date. *)
Lemma car_dump_isoformat (c : Car.t) (k : string) (v : value) :
  Car.dump c !! k = Some v -> k ≠ "listed_on" \/ Car.listed_on c = None -> isoformat v = v.
Proof.
  unfold Car.dump. intros H Hk.
  repeat match goal with
  | H : set_opt _ _ _ !! _ = Some _ |- _ =>
      apply set_opt_lookup_Some in H as [[<- Ho]|H]
  | H : <[_ := _]> _ !! _ = Some _ |- _ =>
      apply lookup_insert_Some in H as [[<- <-]|[_ H]]
  end; try done;
  try match goal with
  | Ho : _ <$> ?o = Some _ |- _ => destruct o; simpl in Ho; [by injection Ho as <-|done]
  end.
  destruct Hk as [Hk|Hk]; [done|]. by rewrite Hk in Ho.
Qed.

Section round_trip.
Import Database Seeding.

Lemma create_document_return {A} `{BaseModel A} kind (x : A) (st st1 : Store) new_id :
  create_document kind x st = (Return new_id, st1) ->
  connected st = true /\ rejects st (model_dump x) = None /\
  new_id = str_oid (Oid (next_oid st)) /\
  st1 = snd (insert_one kind (model_dump x) st).
Proof.
  unfold create_document. destruct (connected st); [|done].
  destruct (rejects st (model_dump x)); [done|].
  simpl. intros [= <- <-]. done.
Qed.

Lemma insert_one_collection kind (d : document) (st : Store) :
  collection kind (snd (insert_one kind d st))
    = (collection kind st ++ [<["_id" := VObjectId (Oid (next_oid st))]> d])%list.
Proof. unfold collection at 1. simpl. by rewrite lookup_insert_eq. Qed.

(** Creating a document keeps a store well formed, and the empty store
    is well formed. *)
Lemma create_document_well_formed {A} `{BaseModel A} kind (x : A) (st st1 : Store) o :
  well_formed st -> create_document kind x st = (o, st1) -> well_formed st1.
Proof.
  intros Hwf Hrun.
  assert (Hst : st1 = st \/ st1 = snd (insert_one kind (model_dump x) st)).
  { revert Hrun. unfold create_document. destruct (connected st); [|intros [= _ <-]; by left].
    destruct (rejects st (model_dump x)); [intros [= _ <-]; by left|].
    simpl. intros [= _ <-]. by right. }
  destruct Hst as [->| ->]; [done|]. intros kind' d.
  destruct (decide (kind' = kind)) as [->|Hne].
  - rewrite insert_one_collection. intros [Hd|Hd%list_elem_of_singleton]%elem_of_app.
    + destruct (Hwf kind d Hd) as (oid & Hoid & Hlt). exists oid. simpl. split; [done|lia].
    + subst d. eexists. rewrite lookup_insert_eq. split; [done|]. simpl. lia.
  - unfold collection. simpl. rewrite lookup_insert_ne by done.
    intros Hd. destruct (Hwf kind' d Hd) as (oid & Hoid & Hlt).
    exists oid. split; [done|lia].
Qed.

Lemma empty_store_well_formed : well_formed Examples.empty_store.
Proof. intros kind d. unfold collection. simpl. rewrite lookup_empty. by intros ?%elem_of_nil. Qed.

Lemma well_formed_stored (st : Store) kind :
  well_formed st -> Forall stored (collection kind st).
Proof.
  intros Hwf. apply Forall_forall. intros d Hd.
  destruct (Hwf kind d Hd) as (oid & Hoid & _). by exists oid.
Qed.

(** C1, as stated, fails: with one car in the store and a limit of one,
    the listing that follows the creation of a second car returns the first
    car only, and no record carries the identifier of the second. *)
Lemma round_trip_needs_room :
  exists new_id st1,
    create_document "car" Examples.tesla Examples.one_car_store = (Return new_id, st1) /\
    (exists docs, get_documents "car" ∅ 1 st1 = (Return docs, st1) /\
       length docs = 1%nat /\ ~ exists d, d ∈ docs /\ id_text d = Some new_id) /\
    (exists rs, list_cars None None None None (Some 1) st1 = (Return rs, st1) /\
       length rs = 1%nat /\ ~ exists r, r ∈ rs /\ r !! "id" = Some (VStr new_id)).
Proof.
  eexists _, _. split; [reflexivity|]. split.
  - eexists. split; [reflexivity|]. split; [reflexivity|].
    intros (d & Hd & Hid). apply list_elem_of_singleton in Hd. subst d.
    vm_compute in Hid. discriminate Hid.
  - eexists. split; [reflexivity|]. split; [reflexivity|].
    intros (r & Hr & Hid). apply list_elem_of_singleton in Hr. subst r.
    vm_compute in Hid. discriminate Hid.
Qed.

(** C1, amended: when the car collection of a well-formed store holds
    fewer than [n] documents and [create_document] returns an identifier
    for a car, the listing with limit [n] that follows returns, as its last
    record, one whose [id] is that identifier and whose other fields are
    those of the car, [listed_on] as its ISO text. *)
Theorem create_then_list_round_trip
    (c : Car.t) (n : Z) (st st1 : Store) (new_id : string) :
  create_document "car" c st = (Return new_id, st1) ->
  refuses st ∅ = None ->
  Forall stored (collection "car" st) ->
  Z.of_nat (length (collection "car" st)) < n ->
  exists rs r,
    list_cars None None None None (Some n) st1 = (Return rs, st1) /\
    last rs = Some r /\
    r !! "id" = Some (VStr new_id) /\
    delete "id" r = isoformat <$> Car.dump c /\
    (forall k, k ≠ "id" -> k ≠ "listed_on" -> r !! k = Car.dump c !! k) /\
    r !! "listed_on" = VStr ∘ date_isoformat <$> Car.listed_on c /\
    (Car.listed_on c = None -> delete "id" r = Car.dump c).
Proof.
  intros Hcreate Hq Hold Hn.
  apply create_document_return in Hcreate as (Hc & _ & -> & ->).
  set (oid := Oid (next_oid st)).
  set (st1 := snd (insert_one "car" (model_dump c) st)).
  set (r := <["id" := VStr (str_oid oid)]> (isoformat <$> Car.dump c) : document).
  destruct (stored_is_normalized _ Hold) as [(rs & Hrs & Hlen) _].
  assert (Hfresh : forall k, (isoformat <$> Car.dump c) !! k = isoformat <$> Car.dump c !! k)
    by (intros k; apply lookup_fmap).
  assert (Hnew : normalize_car (<["_id" := VObjectId oid]> (Car.dump c)) = Some r).
  { rewrite (normalize_car_stored _ oid) by apply lookup_insert_eq.
    rewrite delete_insert_eq, delete_id by apply car_dump_no_id. done. }
  exists (rs ++ [r])%list, r. split; [|split; [|split; [|split; [|split; [|split]]]]].
  - apply (list_cars_run None None None None (Some n) st1
             (collection "car" st ++ [<["_id" := VObjectId oid]> (Car.dump c)])%list).
    + done.
    + done.
    + simpl. lia.
    + rewrite car_query_no_filter. unfold st1. rewrite insert_one_collection.
      apply select_empty.
    + simpl. rewrite take_ge by (rewrite length_app; simpl; lia).
      apply mapM_Some_2, Forall2_app; [by apply mapM_Some_1|].
      by repeat constructor.
  - apply last_snoc.
  - apply lookup_insert_eq.
  - unfold r. rewrite delete_insert_eq. apply delete_id.
    rewrite Hfresh. by rewrite (proj2 (car_dump_no_id c)).
  - intros k Hid Hl. unfold r. rewrite lookup_insert_ne by done. rewrite Hfresh.
    destruct (Car.dump c !! k) as [v|] eqn:Hk; [|done]. simpl.
    f_equal. apply (car_dump_isoformat c k v Hk). by left.
  - unfold r. rewrite lookup_insert_ne by done. rewrite Hfresh.
    unfold Car.dump. rewrite lookup_set_opt_ne by done.
    rewrite lookup_set_opt_eq by (by dump_lookup). by destruct (Car.listed_on c).
  - intros Hnone. unfold r. rewrite delete_insert_eq, delete_id.
    + apply map_eq. intros k. rewrite Hfresh.
      destruct (Car.dump c !! k) as [v|] eqn:Hk; [|done]. simpl.
      f_equal. apply (car_dump_isoformat c k v Hk). by right.
    + rewrite Hfresh. by rewrite (proj2 (car_dump_no_id c)).
Qed.

End round_trip.

Section round_trip_witness.
Import Database Seeding.

Lemma create_then_list_round_trip_witness :
  create_document "car" Examples.tesla Examples.one_car_store
    = (Return (str_oid (Oid 1)),
       snd (create_document "car" Examples.tesla Examples.one_car_store)) /\
  exists rs r,
    list_cars None None None None (Some 2)
        (snd (create_document "car" Examples.tesla Examples.one_car_store))
      = (Return rs, snd (create_document "car" Examples.tesla Examples.one_car_store)) /\
    last rs = Some r /\
    r !! "id" = Some (VStr (str_oid (Oid 1))) /\
    delete "id" r = isoformat <$> Car.dump Examples.tesla /\
    (forall k, k ≠ "id" -> k ≠ "listed_on" -> r !! k = Car.dump Examples.tesla !! k) /\
    r !! "listed_on" = VStr ∘ date_isoformat <$> Car.listed_on Examples.tesla /\
    (Car.listed_on Examples.tesla = None -> delete "id" r = Car.dump Examples.tesla).
Proof.
  split; [reflexivity|].
  apply (create_then_list_round_trip Examples.tesla 2 Examples.one_car_store).
  - reflexivity.
  - reflexivity.
  - apply well_formed_stored.
    apply (create_document_well_formed "car" Examples.camry Examples.empty_store _
             (fst (create_document "car" Examples.camry Examples.empty_store))).
    + apply empty_store_well_formed.
    + reflexivity.
  - reflexivity.
Defined.

Lemma price_bounds_form_one_inclusive_range_witness :
  list_cars None None (Some 20000%Q) (Some 30000%Q) None Examples.seeded_store
    = (Return (Examples.returned
                 (fst (list_cars None None (Some 20000%Q) (Some 30000%Q) None
                         Examples.seeded_store))),
       Examples.seeded_store) /\
  length (Examples.returned
            (fst (list_cars None None (Some 20000%Q) (Some 30000%Q) None
                    Examples.seeded_store))) = 1%nat /\
  forall r,
    r ∈ Examples.returned
          (fst (list_cars None None (Some 20000%Q) (Some 30000%Q) None
                  Examples.seeded_store)) ->
    exists v p, r !! "price" = Some v /\ number_of v = Some p /\
      (forall l, Some 20000%Q = Some l -> (l <= p)%Q) /\
      (forall h, Some 30000%Q = Some h -> (p <= h)%Q).
Proof.
  split; [vm_compute; reflexivity|]. split; [vm_compute; reflexivity|].
  refine (proj1 (proj2 (proj2 (proj2
    (price_bounds_form_one_inclusive_range None None (Some 20000%Q) (Some 30000%Q) None
       Examples.seeded_store Examples.seeded_store _ _)))) _).
  - vm_compute. reflexivity.
  - by left.
Defined.

Lemma listings_capped_by_limit_witness :
  get_documents "car" ∅ 3 Examples.seeded_store
    = (Return (take 3 (collection "car" Examples.seeded_store)), Examples.seeded_store) /\
  Z.of_nat (length (take 3 (collection "car" Examples.seeded_store))) <= 3.
Proof.
  split; [vm_compute; reflexivity|].
  refine (proj1 (listings_capped_by_limit "car" ∅ 3 Examples.seeded_store
                   Examples.seeded_store _ _)).
  vm_compute. reflexivity.
Defined.

End round_trip_witness.

(** ** Patterns built from [make] and [model] *)

Lemma is_ascii7_app (s t : string) : is_ascii7 (s +:+ t) = is_ascii7 s && is_ascii7 t.
Proof. induction s as [|c s IH]; simpl; [done|]. by rewrite IH, andb_assoc. Qed.

(** A text without special characters is parsed as itself. *)
Lemma parse_atoms_literal (s : string) :
  literal s = true ->
  parse_atoms (s +:+ "$") = Some (Lit <$> list_ascii_of_string s, true).
Proof.
  induction s as [|c s IH]; simpl; [done|].
  intros [Hc Hs]%andb_true_iff. apply negb_true_iff in Hc.
  rewrite (IH Hs).
  assert (Hd : Ascii.eqb c "$" = false).
  { destruct (Ascii.eqb_spec c "$") as [->|]; [done|done]. }
  assert (Hp : Ascii.eqb c "." = false).
  { destruct (Ascii.eqb_spec c ".") as [->|]; [done|done]. }
  by rewrite Hd, Hp, Hc.
Qed.

Lemma match_literal (s subject : string) :
  match match_here true (Lit <$> list_ascii_of_string s) subject with
  | Some rest => String.eqb rest ""
  | None => false
  end = String.eqb (lower_string s) (lower_string subject).
Proof.
  revert subject. induction s as [|c s IH]; intros [|x subject]; simpl; try done.
  destruct (Ascii.eqb (lower c) (lower x)); [apply IH|done].
Qed.

(** For a [make] without special characters the filter of [list_cars]
    holds of the texts that equal it up to the case of letters. *)
Lemma anchored_regex_literal (s subject : string) :
  literal s = true -> is_ascii7 s = true ->
  is_ascii7 subject = true -> one_line subject = true ->
  eval_operators (anchored_regex s) (Some (VStr subject))
    = Some (String.eqb (lower_string s) (lower_string subject)).
Proof.
  intros Hlit Hs Hsub Hline.
  assert (Hok : bool_decide (anchored_regex s ≠ ∅ /\
                             dom (anchored_regex s) ⊆ supported_operators) = true).
  { vm_compute. reflexivity. }
  unfold eval_operators. rewrite Hok.
  change (anchored_regex s !! "$gte") with (@None value).
  change (anchored_regex s !! "$lte") with (@None value).
  unfold regex_op.
  change (anchored_regex s !! "$regex") with (Some (VStr ("^" +:+ s +:+ "$"))).
  change (anchored_regex s !! "$options") with (Some (VStr "i")).
  simpl. unfold regex_match. simpl.
  change ("" +:+ s +:+ "$") with (s +:+ "$").
  rewrite is_ascii7_app, Hs, Hsub, Hline. simpl.
  rewrite (parse_atoms_literal s Hlit). simpl.
  unfold search, match_at. simpl. by rewrite match_literal.
Qed.

(** C2: the argument is spliced into the pattern as it is, so that a
    [make] with a special character matches stored texts that differ from it
    by more than the case of letters: [T.sla] finds the car whose make is
    [Tesla].  The examples of the claim hold: [tesla] matches [Tesla], and
    [Tesla] does not match [Tesla Model]. *)
Theorem unescaped_make_matches_other_text :
  car_query (Some "T.sla") None None None = {[ "make" := anchored_regex "T.sla" ]} /\
  anchored_regex "T.sla" !! "$regex" = Some (VStr "^T.sla$") /\
  String.eqb (lower_string "T.sla") (lower_string "Tesla") = false /\
  eval_operators (anchored_regex "T.sla") (Some (VStr "Tesla")) = Some true /\
  doc_matches (car_query (Some "T.sla") None None None) (Car.dump Examples.tesla) = Some true /\
  (exists r, list_cars (Some "T.sla") None None None None Examples.seeded_store
               = (Return [r], Examples.seeded_store) /\
             r !! "make" = Some (VStr "Tesla")) /\
  eval_operators (anchored_regex "tesla") (Some (VStr "Tesla")) = Some true /\
  eval_operators (anchored_regex "Tesla") (Some (VStr "Tesla Model")) = Some false.
Proof.
  repeat split; try (vm_compute; reflexivity).
  eexists. split; vm_compute; reflexivity.
Qed.

(** ** Normalisation in the two listings *)

(** The [normalize] of [list_dealers] replaces [_id] and keeps every other
    field as it is, dates included; the one of [list_cars] converts them. *)
Lemma normalize_dealer_keeps (d r : document) (k : string) :
  normalize_dealer d = Some r -> k ≠ "id" -> k ≠ "_id" -> r !! k = d !! k.
Proof. apply publish_id_lookup. Qed.

Lemma normalize_stored (d : document) (oid : ObjectId) :
  d !! "_id" = Some (VObjectId oid) ->
  normalize_car d = Some (<["id" := VStr (str_oid oid)]> (isoformat <$> delete "_id" d)) /\
  normalize_dealer d = Some (<["id" := VStr (str_oid oid)]> (delete "_id" d)).
Proof.
  intros Hid. split; [by apply normalize_car_stored|by apply publish_id_stored].
Qed.


(** * Further properties of the code *)

(** ** Acceptance by the schemas *)

Lemma with_default_inr {A} (d : A) (f : field A) (a : A) :
  with_default d f = inr a <-> a = field_or d f.
Proof. destruct f; simpl; split; congruence. Qed.

Lemma required_inr {A} (loc : string) (f : field A) (a : A) :
  required loc f = inr a <-> f = Given a.
Proof. destruct f; simpl; split; congruence. Qed.

Lemma constrained_inr_iff {A} (loc : string) (ok : A -> bool) (v : validated A) (a : A) :
  constrained loc ok v = inr a <-> v = inr a /\ ok a = true.
Proof.
  split; [apply constrained_inr|]. intros [-> Hok]. simpl. by rewrite Hok.
Qed.

Lemma vap_inr_iff {A B} (f : validated (A -> B)) (x : validated A) (b : B) :
  f <*> x = inr b <-> exists g a, f = inr g /\ x = inr a /\ b = g a.
Proof.
  split; [apply vap_inr|]. intros (g & a & -> & -> & ->). done.
Qed.

Lemma unless_none_true {A} (ok : A -> bool) (o : option A) :
  unless_none ok o = true <-> forall a, o = Some a -> ok a = true.
Proof.
  destruct o as [a|]; simpl; split; try done.
  - by intros Hok ? [= <-].
  - intros H. by apply H.
Qed.

Ltac split_validated H :=
  repeat (apply vap_inr in H as (? & ? & H & ? & ->));
  injection H as <-;
  repeat match goal with
  | H : constrained _ _ _ = inr _ |- _ => apply constrained_inr in H as [? ?]
  end;
  repeat match goal with
  | H : required _ _ = inr _ |- _ => apply required_inr in H
  | H : with_default _ _ = inr _ |- _ => apply with_default_inr in H
  end.

(** X1: a body is accepted as a car exactly when make, model, year and
    price are given, the year lies in 1900..2100, the price is not negative
    and a mileage that is given and not null is not negative; the members
    left out take their defaults. *)
Theorem validate_car_accepts_iff (b : CarBody.t) (c : Car.t) :
  validate_car b = inr c <->
  CarBody.make b = Given (Car.make c) /\
  CarBody.model b = Given (Car.model c) /\
  CarBody.year b = Given (Car.year c) /\ 1900 <= Car.year c <= 2100 /\
  CarBody.price b = Given (Car.price c) /\ (0 <= Car.price c)%Q /\
  Car.mileage c = field_or None (CarBody.mileage b) /\
  (forall m, Car.mileage c = Some m -> 0 <= m) /\
  Car.fuel_type c = field_or (Some "Gasoline") (CarBody.fuel_type b) /\
  Car.transmission c = field_or (Some "Automatic") (CarBody.transmission b) /\
  Car.body_style c = field_or None (CarBody.body_style b) /\
  Car.color c = field_or None (CarBody.color b) /\
  Car.location c = field_or None (CarBody.location b) /\
  Car.features c = field_or [] (CarBody.features b) /\
  Car.photos c = field_or [] (CarBody.photos b) /\
  Car.dealer_id c = field_or None (CarBody.dealer_id b) /\
  Car.listed_on c = field_or None (CarBody.listed_on b) /\
  Car.condition c = field_or (Some "Used") (CarBody.condition b).
Proof.
  split.
  - unfold validate_car. intros H. split_validated H. simpl.
    unfold ge_int, le_int, ge_float in *.
    repeat match goal with
    | H : _ && _ = true |- _ => apply andb_true_iff in H as [? ?]
    | H : unless_none _ _ = true |- _ => rewrite unless_none_true in H
    | H : Qle_bool _ _ = true |- _ => apply Qle_bool_iff in H
    end.
    repeat split; try done; try lia.
    intros m Hm. apply Z.leb_le. eauto.
  - intros (Hmake & Hmodel & Hyear & Hy & Hprice & Hp & Hmil & Hm & Hfuel & Htrans & Hbody &
            Hcolor & Hloc & Hfeat & Hphotos & Hdealer & Hlisted & Hcond).
    unfold validate_car.
    assert (Hd : forall {A} (d : A) (f : field A), with_default d f = inr (field_or d f))
      by (intros A d f; by apply with_default_inr).
    rewrite !Hd, Hmake, Hmodel, Hyear, Hprice, <- Hmil, <- Hfuel, <- Htrans, <- Hbody,
      <- Hcolor, <- Hloc, <- Hfeat, <- Hphotos, <- Hdealer, <- Hlisted, <- Hcond.
    simpl.
    assert (Hy' : ge_int 1900 (Car.year c) && le_int 2100 (Car.year c) = true).
    { unfold ge_int, le_int. apply andb_true_iff. split; apply Z.leb_le; lia. }
    assert (Hp' : ge_float 0 (Car.price c) = true) by (by apply Qle_bool_iff).
    assert (Hm' : unless_none (ge_int 0) (Car.mileage c) = true).
    { apply unless_none_true. intros m Hmm. apply Z.leb_le. by apply Hm. }
    rewrite Hy', Hp', Hm'. simpl. by destruct c.
Qed.

(** X2: a body is accepted as a dealer exactly when name and email are
    given and a rating that is given and not null lies within [0,5]; a
    rating left out is 4.5, and phone, city and state default to null. *)
Theorem validate_dealer_accepts_iff (b : DealerBody.t) (d : Dealer.t) :
  validate_dealer b = inr d <->
  DealerBody.name b = Given (Dealer.name d) /\
  DealerBody.email b = Given (Dealer.email d) /\
  Dealer.phone d = field_or None (DealerBody.phone b) /\
  Dealer.city d = field_or None (DealerBody.city b) /\
  Dealer.state d = field_or None (DealerBody.state b) /\
  Dealer.rating d = field_or (Some (9 # 2)%Q) (DealerBody.rating b) /\
  (forall r, Dealer.rating d = Some r -> (0 <= r <= 5)%Q).
Proof.
  split.
  - unfold validate_dealer. intros H. split_validated H. simpl.
    do 6 (split; [done|]). intros r Hr.
    match goal with H : unless_none _ _ = true |- _ =>
      rewrite unless_none_true in H; specialize (H r Hr);
      apply andb_true_iff in H as [? ?] end.
    split; by apply Qle_bool_iff.
  - intros (Hname & Hemail & Hphone & Hcity & Hstate & Hrating & Hr).
    unfold validate_dealer.
    assert (Hd : forall {A} (d : A) (f : field A), with_default d f = inr (field_or d f))
      by (intros A x f; by apply with_default_inr).
    rewrite !Hd, Hname, Hemail, <- Hphone, <- Hcity, <- Hstate, <- Hrating. simpl.
    assert (Hok : unless_none (fun r => ge_float 0 r && le_float 5 r) (Dealer.rating d) = true).
    { apply unless_none_true. intros r Hrd. destruct (Hr r Hrd) as [Hlo Hhi].
      apply andb_true_iff. split; by apply Qle_bool_iff. }
    rewrite Hok. by destruct d.
Qed.

(** X3: a body is accepted as a lead exactly when car_id, name and email
    are given; phone and message default to null, and no member is
    constrained: an empty text is accepted for each of them. *)
Theorem validate_lead_accepts_iff (b : LeadBody.t) (l : Lead.t) :
  validate_lead b = inr l <->
  LeadBody.car_id b = Given (Lead.car_id l) /\
  LeadBody.name b = Given (Lead.name l) /\
  LeadBody.email b = Given (Lead.email l) /\
  Lead.phone l = field_or None (LeadBody.phone b) /\
  Lead.message l = field_or None (LeadBody.message b).
Proof.
  split.
  - unfold validate_lead. intros H. split_validated H. simpl. done.
  - intros (Hcar & Hname & Hemail & Hphone & Hmsg). unfold validate_lead.
    assert (Hd : forall {A} (d : A) (f : field A), with_default d f = inr (field_or d f))
      by (intros A x f; by apply with_default_inr).
    rewrite !Hd, Hcar, Hname, Hemail, <- Hphone, <- Hmsg. simpl. by destruct l.
Qed.

(** X4: a body is accepted as a user exactly when name, email and address
    are given; age defaults to null and is_active to true. *)
Theorem validate_user_accepts_iff (b : UserBody.t) (u : User.t) :
  validate_user b = inr u <->
  UserBody.name b = Given (User.name u) /\
  UserBody.email b = Given (User.email u) /\
  UserBody.address b = Given (User.address u) /\
  User.age u = field_or None (UserBody.age b) /\
  User.is_active u = field_or true (UserBody.is_active b).
Proof.
  split.
  - unfold validate_user. intros H. split_validated H. simpl. done.
  - intros (Hname & Hemail & Haddr & Hage & Hact). unfold validate_user.
    assert (Hd : forall {A} (d : A) (f : field A), with_default d f = inr (field_or d f))
      by (intros A x f; by apply with_default_inr).
    rewrite !Hd, Hname, Hemail, Haddr, <- Hage, <- Hact. simpl. by destruct u.
Qed.

(** X5: a body is accepted as a product exactly when title, price and
    category are given; unlike the price of a car, the price of a product
    has no bound, so that a negative one is accepted. *)
Theorem validate_product_accepts_iff (b : ProductBody.t) (p : Product.t) :
  validate_product b = inr p <->
  ProductBody.title b = Given (Product.title p) /\
  Product.description p = field_or None (ProductBody.description b) /\
  ProductBody.price b = Given (Product.price p) /\
  ProductBody.category b = Given (Product.category p) /\
  Product.in_stock p = field_or true (ProductBody.in_stock b).
Proof.
  split.
  - unfold validate_product. intros H. split_validated H. simpl. done.
  - intros (Htitle & Hdesc & Hprice & Hcat & Hstock). unfold validate_product.
    assert (Hd : forall {A} (d : A) (f : field A), with_default d f = inr (field_or d f))
      by (intros A x f; by apply with_default_inr).
    rewrite !Hd, Htitle, Hprice, Hcat, <- Hdesc, <- Hstock. simpl. by destruct p.
Qed.

(** ** The create routes *)

Section create_routes.
Context {S : Type} `{!DocumentAccess S}.

Lemma create_handler_cases {A} `{BaseModel A} (kind : string) (x : A) (st : S) :
  let run := try_except
      (new_id ← create_document kind x; mret ({[ "id" := VStr new_id ]} : document))
      internal_error st in
  snd run = snd (create_document kind x st) /\
  match fst (create_document kind x st) with
  | Return new_id => fst run = Return {[ "id" := VStr new_id ]}
  | Raise e =>
      match str_exn e with
      | Some msg => fst run = Raise (HTTPException 500 msg)
      | None => fst run = Unmodelled
      end
  | Unmodelled => fst run = Unmodelled
  end.
Proof.
  unfold try_except, mbind, M_bind, bind. simpl.
  destruct (create_document kind x st) as [[new_id|e|] st']; simpl; [done| |done].
  unfold internal_error, mbind, M_bind, bind.
  destruct (str_exn e) as [msg|]; simpl; done.
Qed.

(** X6: whatever the access layer does, a create handler leaves the store
    as [create_document] left it and answers with the identifier under [id]
    when [create_document] returns one, with status 500 and the text of the
    exception when it raises; it has no other answer. *)
Theorem create_handlers_follow_create_document
    (car : Car.t) (dealer : Dealer.t) (lead : Lead.t) (st : S) :
  (snd (create_car car st) = snd (create_document "car" car st) /\
   match fst (create_document "car" car st) with
   | Return new_id => fst (create_car car st) = Return {[ "id" := VStr new_id ]}
   | Raise e => fst (create_car car st)
                = from_option (fun msg => Raise (HTTPException 500 msg)) Unmodelled (str_exn e)
   | Unmodelled => fst (create_car car st) = Unmodelled
   end) /\
  (snd (create_dealer dealer st) = snd (create_document "dealer" dealer st) /\
   match fst (create_document "dealer" dealer st) with
   | Return new_id => fst (create_dealer dealer st) = Return {[ "id" := VStr new_id ]}
   | Raise e => fst (create_dealer dealer st)
                = from_option (fun msg => Raise (HTTPException 500 msg)) Unmodelled (str_exn e)
   | Unmodelled => fst (create_dealer dealer st) = Unmodelled
   end) /\
  (snd (create_lead lead st) = snd (create_document "lead" lead st) /\
   match fst (create_document "lead" lead st) with
   | Return new_id => fst (create_lead lead st) = Return {[ "id" := VStr new_id ]}
   | Raise e => fst (create_lead lead st)
                = from_option (fun msg => Raise (HTTPException 500 msg)) Unmodelled (str_exn e)
   | Unmodelled => fst (create_lead lead st) = Unmodelled
   end).
Proof.
  split; [|split].
  - destruct (create_handler_cases "car" car st) as [Hs Ho]. split; [exact Hs|].
    unfold create_car. destruct (fst (create_document "car" car st)) as [?|e|]; try done.
    by destruct (str_exn e).
  - destruct (create_handler_cases "dealer" dealer st) as [Hs Ho]. split; [exact Hs|].
    unfold create_dealer. destruct (fst (create_document "dealer" dealer st)) as [?|e|]; try done.
    by destruct (str_exn e).
  - destruct (create_handler_cases "lead" lead st) as [Hs Ho]. split; [exact Hs|].
    unfold create_lead. destruct (fst (create_document "lead" lead st)) as [?|e|]; try done.
    by destruct (str_exn e).
Qed.

Ltac find_error :=
  repeat first
    [ apply vap_inl_r;
      solve [ eexists; simpl;
              repeat match goal with H : _ = false |- _ => rewrite H end;
              reflexivity ]
    | apply vap_inl_l ].

Lemma validate_car_rejects_iff (body : CarBody.t) :
  (exists errors, validate_car body = inl errors) <->
  CarBody.make body = Omitted \/ CarBody.model body = Omitted \/
  CarBody.year body = Omitted \/
  (exists y, CarBody.year body = Given y /\ (y < 1900 \/ 2100 < y)) \/
  CarBody.price body = Omitted \/
  (exists p, CarBody.price body = Given p /\ (p < 0)%Q) \/
  (exists m, CarBody.mileage body = Given (Some m) /\ m < 0).
Proof.
  unfold validate_car, ge_int, le_int, ge_float.
  assert (Hd : forall {A} (d : A) (f : field A), with_default d f = inr (field_or d f))
    by (intros A d f; by apply with_default_inr).
  rewrite !Hd. clear Hd.
  destruct (CarBody.make body) as [|mk]; [split; [by left|intros _; find_error]|].
  destruct (CarBody.model body) as [|md]; [split; [right; by left|intros _; find_error]|].
  destruct (CarBody.year body) as [|y];
    [split; [right; right; by left|intros _; find_error]|].
  destruct (Z.leb 1900 y && Z.leb y 2100) eqn:Hy.
  2:{ split; [|intros _; find_error].
      intros _. do 3 right. left. exists y. split; [done|].
      apply andb_false_iff in Hy. rewrite !Z.leb_gt in Hy. done. }
  destruct (CarBody.price body) as [|p];
    [split; [do 4 right; by left|intros _; find_error]|].
  destruct (Qle_bool 0 p) eqn:Hp.
  2:{ split; [|intros _; find_error].
      intros _. do 5 right. left. exists p. split; [done|].
      apply Qnot_le_lt. intros Hle. apply Qle_bool_iff in Hle. congruence. }
  assert (Hgood : forall P : Prop,
    (CarBody.mileage body = Omitted \/ CarBody.mileage body = Given None \/
     exists m, CarBody.mileage body = Given (Some m) /\ 0 <= m) ->
    (Given mk = Omitted \/ Given md = Omitted \/ Given y = Omitted \/
     (exists y0, Given y = Given y0 /\ (y0 < 1900 \/ 2100 < y0)) \/
     Given p = Omitted \/ (exists p0, Given p = Given p0 /\ (p0 < 0)%Q) \/
     (exists m, CarBody.mileage body = Given (Some m) /\ m < 0)) -> P).
  { intros P Hmil [Hf|[Hf|[Hf|[(y' & Hf & Hy')|[Hf|[(p' & Hf & Hp')|(m & Hm & Hneg)]]]]]];
      try discriminate Hf.
    - injection Hf as <-. apply andb_true_iff in Hy as [?%Z.leb_le ?%Z.leb_le]. lia.
    - injection Hf as <-. apply Qle_bool_iff in Hp. by destruct (Qlt_not_le _ _ Hp').
    - destruct Hmil as [Hm'|[Hm'|(m' & Hm' & Hpos)]]; rewrite Hm' in Hm; try discriminate Hm.
      injection Hm as <-. lia. }
  destruct (CarBody.mileage body) as [|[m|]] eqn:Hmil.
  - split; [simpl; rewrite Hy, Hp; simpl; by intros [? [=]]|].
    apply Hgood. by left.
  - destruct (Z.leb 0 m) eqn:Hm.
    + split; [simpl; rewrite Hy, Hp, Hm; simpl; by intros [? [=]]|].
      apply Hgood. right. right. exists m. split; [done|]. by apply Z.leb_le.
    + split; [|intros _; find_error].
      intros _. do 6 right. exists m. split; [done|]. by apply Z.leb_gt.
  - split; [simpl; rewrite Hy, Hp; simpl; by intros [? [=]]|].
    apply Hgood. right. by left.
Qed.

(** X7: the car route answers 422 exactly when make, model, year or price
    is left out, the year is below 1900 or above 2100, the price is negative,
    or the mileage is a negative number, and then leaves the store untouched;
    for every other body it is the create handler on the validated car, so
    that its status is 200 or 500. *)
Theorem post_api_cars_statuses (body : CarBody.t) (st : S) :
  (status (fst (post_api_cars body st)) = Some 422 <->
     CarBody.make body = Omitted \/ CarBody.model body = Omitted \/
     CarBody.year body = Omitted \/
     (exists y, CarBody.year body = Given y /\ (y < 1900 \/ 2100 < y)) \/
     CarBody.price body = Omitted \/
     (exists p, CarBody.price body = Given p /\ (p < 0)%Q) \/
     (exists m, CarBody.mileage body = Given (Some m) /\ m < 0)) /\
  (status (fst (post_api_cars body st)) = Some 422 -> snd (post_api_cars body st) = st) /\
  (forall car, validate_car body = inr car ->
     post_api_cars body st = create_car car st /\
     (status (fst (post_api_cars body st)) = Some 200 \/
      status (fst (post_api_cars body st)) = Some 500 \/
      status (fst (post_api_cars body st)) = None)).
Proof.
  assert (Hcreate : forall car,
    status (fst (create_car car st)) = Some 200 \/
    status (fst (create_car car st)) = Some 500 \/
    status (fst (create_car car st)) = None).
  { intros car. destruct (create_handler_cases "car" car st) as [_ Ho].
    unfold create_car.
    destruct (fst (create_document "car" car st)) as [?|e|].
    - rewrite Ho. by left.
    - destruct (str_exn e); rewrite Ho; [right; by left|right; by right].
    - rewrite Ho. right; by right. }
  rewrite <- validate_car_rejects_iff.
  unfold post_api_cars. destruct (validate_car body) as [errors|car] eqn:Hv.
  - split; [|split].
    + simpl. split; [eauto|done].
    + done.
    + done.
  - assert (Hno : status (fst (create_car car st)) = Some 422 -> False).
    { intros H422. destruct (Hcreate car) as [H|[H|H]]; rewrite H in H422; done. }
    split; [|split].
    + split; [by intros ?%Hno|by intros [? ?]].
    + by intros ?%Hno.
    + intros ? [= <-]. split; [done|apply Hcreate].
Qed.

End create_routes.

(** ** The listings and the seed route with any access layer *)

Section list_routes.
Context {S : Type} `{!DocumentAccess S}.

Lemma for_each_of_option_run {E A B} (f : A -> option B) (xs : list A) (st : S) :
  for_each (E := E) (fun x => of_option (f x)) xs st
    = (from_option Return Unmodelled (mapM f xs), st).
Proof.
  induction xs as [|x xs IH]; simpl; [done|].
  unfold mbind, M_bind, bind. destruct (f x) as [y|]; simpl; [|done].
  rewrite IH. by destruct (mapM f xs).
Qed.

Lemma list_handler_cases (kind : string) (q : query) (limit : Z)
    (normalize : document -> option document) (st : S) :
  let run := try_except
      (docs ← get_documents kind q limit;
       for_each (fun doc => of_option (normalize doc)) docs)
      internal_error st in
  snd run = snd (get_documents kind q limit st) /\
  fst run =
    match fst (get_documents kind q limit st) with
    | Return docs => from_option Return Unmodelled (mapM normalize docs)
    | Raise e => from_option (fun msg => Raise (HTTPException 500 msg)) Unmodelled (str_exn e)
    | Unmodelled => Unmodelled
    end.
Proof.
  unfold try_except, mbind, M_bind, bind. simpl.
  destruct (get_documents kind q limit st) as [[docs|e|] st']; simpl; [| |done].
  - rewrite for_each_of_option_run. by destruct (mapM normalize docs).
  - unfold internal_error, mbind, M_bind, bind. by destruct (str_exn e).
Qed.

(** X8: whatever the access layer does, a listing leaves the store as
    [get_documents] left it; it returns one normalised record for each
    document that [get_documents] returned, in the same order, and it answers
    a failure of [get_documents] with status 500 and the text of the
    exception. *)
Theorem listings_follow_get_documents
    (make model : option string) (lo hi : option Q) (limit : option Z) (st : S) :
  (snd (list_cars make model lo hi limit st)
     = snd (get_documents "car" (car_query make model lo hi) (default 20 limit) st) /\
   fst (list_cars make model lo hi limit st) =
     match fst (get_documents "car" (car_query make model lo hi) (default 20 limit) st) with
     | Return docs => from_option Return Unmodelled (mapM normalize_car docs)
     | Raise e => from_option (fun msg => Raise (HTTPException 500 msg)) Unmodelled (str_exn e)
     | Unmodelled => Unmodelled
     end) /\
  (snd (list_dealers limit st) = snd (get_documents "dealer" ∅ (default 50 limit) st) /\
   fst (list_dealers limit st) =
     match fst (get_documents "dealer" ∅ (default 50 limit) st) with
     | Return docs => from_option Return Unmodelled (mapM normalize_dealer docs)
     | Raise e => from_option (fun msg => Raise (HTTPException 500 msg)) Unmodelled (str_exn e)
     | Unmodelled => Unmodelled
     end).
Proof.
  split.
  - apply (list_handler_cases "car" (car_query make model lo hi) (default 20 limit)
             normalize_car st).
  - apply (list_handler_cases "dealer" ∅ (default 50 limit) normalize_dealer st).
Qed.

Lemma for_each_app_raise {E A B} (f : A -> M S E B) (pre post : list A) (x : A)
    (ys : list B) (e : E) (st st' st'' : S) :
  for_each f pre st = (Return ys, st') ->
  f x st' = (Raise e, st'') ->
  for_each f (pre ++ x :: post) st = (Raise e, st'').
Proof.
  revert ys st. induction pre as [|a pre IH]; intros ys st; simpl.
  - intros [= <- <-] Hx. unfold mbind, M_bind, bind. by rewrite Hx.
  - unfold mbind, M_bind, bind.
    destruct (f a st) as [[b| |] st1]; try done.
    destruct (for_each f pre st1) as [[bs| |] st2] eqn:Hpre; try done.
    intros [= <- <-] Hx. by rewrite (IH bs st1 Hpre Hx).
Qed.

Lemma samples_constructed (st : S) :
  for_each construct_car samples st = (Return Seeding.sample_cars, st).
Proof. reflexivity. Qed.

(** X9: the seed route does not undo what it has inserted: when
    [create_document] succeeds for the first samples and raises a failure of
    the store for the next one, the route answers with status 500 and the
    text of the failure, the store is left as the failed call left it, after
    the insertions that succeeded, and the samples that follow are not
    tried. *)
Theorem seed_cars_stops_at_first_failure
    (pre post : list Car.t) (c : Car.t) (ids : list string) (st st' st'' : S)
    (kind : error_kind) (msg : string) :
  Seeding.sample_cars = (pre ++ c :: post)%list ->
  for_each (create_document "car") pre st = (Return ids, st') ->
  create_document "car" c st' = (Raise (StoreError kind msg), st'') ->
  seed_cars st = (Raise (HTTPException 500 msg), st'').
Proof.
  intros Hsplit Hpre Hfail. unfold seed_cars.
  rewrite (try_except_raise _ _ st (StoreError kind msg) st'').
  - apply internal_error_store.
  - rewrite (bind_return _ _ st _ st (samples_constructed st)).
    apply bind_raise. rewrite Hsplit.
    by apply (for_each_app_raise _ pre post c ids _ st st' st'').
Qed.

End list_routes.

Lemma seed_cars_stops_at_first_failure_witness :
  Seeding.sample_cars
    = (take 2 Seeding.sample_cars ++ MoreExamples.third_sample :: drop 3 Seeding.sample_cars)%list /\
  seed_cars MoreExamples.picky_store
    = (Raise (HTTPException 500 "Document failed validation"),
       Seeding.insert_many "car" (Car.dump <$> take 2 Seeding.sample_cars)
         MoreExamples.picky_store) /\
  length (Database.collection "car"
    (Seeding.insert_many "car" (Car.dump <$> take 2 Seeding.sample_cars)
       MoreExamples.picky_store)) = 2%nat.
Proof.
  split; [reflexivity|]. split; [|reflexivity].
  apply (seed_cars_stops_at_first_failure (take 2 Seeding.sample_cars)
           (drop 3 Seeding.sample_cars) MoreExamples.third_sample
           (Seeding.fresh_ids 0 2) MoreExamples.picky_store
           (Seeding.insert_many "car" (Car.dump <$> take 2 Seeding.sample_cars)
              MoreExamples.picky_store)
           (Seeding.insert_many "car" (Car.dump <$> take 2 Seeding.sample_cars)
              MoreExamples.picky_store)
           WriteError "Document failed validation").
  - reflexivity.
  - reflexivity.
  - reflexivity.
Defined.

(** ** Edge cases of [normalize] *)

Lemma has_isoformat_isoformat (v : value) : has_isoformat (isoformat v) = false.
Proof. by destruct v. Qed.

Lemma isoformat_idemp (v : value) : isoformat (isoformat v) = isoformat v.
Proof. by destruct v. Qed.

Lemma publish_id_falsy (d : document) :
  (forall v, d !! "_id" = Some v -> truthy v = false) ->
  publish_id d = Some (<["id" := VNone]> d).
Proof.
  intros Hfalsy. unfold publish_id. destruct (d !! "_id") as [v|]; [|done].
  by rewrite (Hfalsy v eq_refl).
Qed.

(** X10: for a document without [_id], or whose [_id] is falsy (zero, the
    empty text, null), both [normalize] set [id] to null and remove nothing:
    a falsy [_id] stays in the record. *)
Theorem normalize_without_identifier (d : document) :
  (forall v, d !! "_id" = Some v -> truthy v = false) ->
  normalize_dealer d = Some (<["id" := VNone]> d) /\
  normalize_car d = Some (<["id" := VNone]> (isoformat <$> d)) /\
  (forall r, normalize_car d = Some r \/ normalize_dealer d = Some r ->
     r !! "id" = Some VNone /\ (r !! "_id" = None <-> d !! "_id" = None)).
Proof.
  intros Hfalsy.
  assert (Hd : normalize_dealer d = Some (<["id" := VNone]> d))
    by (by apply publish_id_falsy).
  assert (Hc : normalize_car d = Some (<["id" := VNone]> (isoformat <$> d))).
  { unfold normalize_car. rewrite (publish_id_falsy d Hfalsy). simpl.
    by rewrite convert_dates_fmap, fmap_insert. }
  split; [done|]. split; [done|].
  intros r [Hr|Hr].
  - rewrite Hc in Hr. injection Hr as <-. split; [by rewrite lookup_insert_eq|].
    rewrite lookup_insert_ne by done. rewrite lookup_fmap.
    destruct (d !! "_id"); simpl; split; done.
  - rewrite Hd in Hr. injection Hr as <-. split; [by rewrite lookup_insert_eq|].
    by rewrite lookup_insert_ne.
Qed.

Lemma normalize_without_identifier_witness :
  (forall v, MoreExamples.zero_id_document !! "_id" = Some v -> truthy v = false) /\
  normalize_dealer MoreExamples.zero_id_document
    = Some (<["id" := VNone]> MoreExamples.zero_id_document) /\
  normalize_car MoreExamples.zero_id_document
    = Some (<["id" := VNone]> (isoformat <$> MoreExamples.zero_id_document)).
Proof.
  assert (H : forall v, MoreExamples.zero_id_document !! "_id" = Some v -> truthy v = false).
  { intros v Hv. vm_compute in Hv. by injection Hv as <-. }
  split; [exact H|].
  destruct (normalize_without_identifier MoreExamples.zero_id_document H) as (Hd & Hc & _).
  split; [exact Hd|exact Hc].
Defined.

Lemma publish_id_id (d r : document) :
  publish_id d = Some r ->
  r !! "id" = Some VNone \/ exists s, r !! "id" = Some (VStr s).
Proof.
  unfold publish_id. intros Hr. destruct (d !! "_id") as [v|].
  - destruct (truthy v).
    + destruct (py_str v) as [s|]; simpl in Hr; [|done]. injection Hr as <-.
      right. exists s. by rewrite lookup_insert_eq.
    + injection Hr as <-. left. by rewrite lookup_insert_eq.
  - injection Hr as <-. left. by rewrite lookup_insert_eq.
Qed.

(** X11: a record that the [normalize] of [list_cars] returns holds no date
    and no datetime, has a member [id] that is a text or null, whatever [id]
    the document had, and has [_id] only if the document had a falsy one. *)
Theorem normalize_car_record (d r : document) :
  normalize_car d = Some r ->
  (forall k v, r !! k = Some v -> has_isoformat v = false) /\
  (r !! "id" = Some VNone \/ exists s, r !! "id" = Some (VStr s)) /\
  (forall v, r !! "_id" = Some v ->
     truthy v = false /\ exists v', d !! "_id" = Some v' /\ truthy v' = false).
Proof.
  unfold normalize_car. intros Hr.
  destruct (publish_id d) as [d'|] eqn:Hd; simpl in Hr; [|done].
  injection Hr as <-. rewrite convert_dates_fmap. split; [|split].
  - intros k v. rewrite lookup_fmap. destruct (d' !! k) as [w|]; simpl; [|done].
    intros [= <-]. apply has_isoformat_isoformat.
  - rewrite lookup_fmap.
    destruct (publish_id_id d d' Hd) as [->|[s ->]]; simpl; eauto.
  - intros v. rewrite lookup_fmap. revert Hd. unfold publish_id.
    destruct (d !! "_id") as [w|] eqn:Hw.
    + destruct (truthy w) eqn:Ht.
      * destruct (py_str w) as [s|]; simpl; [|done]. intros [= <-].
        rewrite lookup_insert_ne by done. by rewrite lookup_delete_eq.
      * intros [= <-]. rewrite lookup_insert_ne by done. rewrite Hw. simpl.
        intros [= <-]. split; [by destruct w|eauto].
    + intros [= <-]. rewrite lookup_insert_ne by done. by rewrite Hw.
Qed.

Lemma normalize_car_record_witness :
  normalize_car MoreExamples.stored_document
    = Some (<["id" := VStr "0000000000000000000000ff"]>
              (<["seen" := VStr "2024-03-09"]> ({[ "name" := VStr "Ada Motors" ]}))) /\
  (forall k v,
      (<["id" := VStr "0000000000000000000000ff"]>
         (<["seen" := VStr "2024-03-09"]> ({[ "name" := VStr "Ada Motors" ]})) : document) !! k
        = Some v -> has_isoformat v = false).
Proof.
  assert (H : normalize_car MoreExamples.stored_document
    = Some (<["id" := VStr "0000000000000000000000ff"]>
              (<["seen" := VStr "2024-03-09"]> ({[ "name" := VStr "Ada Motors" ]})))).
  { vm_compute. reflexivity. }
  split; [exact H|].
  exact (proj1 (normalize_car_record _ _ H)).
Defined.

(** X12: [normalize] is to be applied once: applied to a record that it
    has returned for a document with a truthy [_id], it finds no [_id] any
    more and puts null in the place of the identifier. *)
Theorem normalize_twice_loses_id (d r : document) (v : value) :
  d !! "_id" = Some v -> truthy v = true ->
  (normalize_car d = Some r -> normalize_car r = Some (<["id" := VNone]> r)) /\
  (normalize_dealer d = Some r -> normalize_dealer r = Some (<["id" := VNone]> r)).
Proof.
  intros Hv Ht.
  assert (Hpub : forall d', publish_id d = Some d' -> d' !! "_id" = None).
  { intros d'. unfold publish_id. rewrite Hv, Ht.
    destruct (py_str v) as [s|]; simpl; [|done]. intros [= <-].
    rewrite lookup_insert_ne by done. apply lookup_delete_eq. }
  split.
  - unfold normalize_car at 1. intros Hr.
    destruct (publish_id d) as [d'|] eqn:Hd; simpl in Hr; [|done].
    injection Hr as <-. rewrite convert_dates_fmap.
    assert (Hnone : forall w, (isoformat <$> d') !! "_id" = Some w -> truthy w = false).
    { intros w. rewrite lookup_fmap, (Hpub d' eq_refl). done. }
    destruct (normalize_without_identifier _ Hnone) as (_ & Hc & _). rewrite Hc.
    f_equal. f_equal. apply map_eq. intros k. rewrite !lookup_fmap.
    destruct (d' !! k); simpl; [|done]. by rewrite isoformat_idemp.
  - unfold normalize_dealer. intros Hr. apply publish_id_falsy.
    intros w. by rewrite (Hpub r Hr).
Qed.

Lemma normalize_twice_loses_id_witness :
  MoreExamples.stored_document !! "_id" = Some (VObjectId (Oid 255)) /\
  normalize_dealer MoreExamples.stored_document
    = Some (<["id" := VStr "0000000000000000000000ff"]>
              (delete "_id" MoreExamples.stored_document)) /\
  normalize_dealer (<["id" := VStr "0000000000000000000000ff"]>
                      (delete "_id" MoreExamples.stored_document))
    = Some (<["id" := VNone]> (<["id" := VStr "0000000000000000000000ff"]>
                                 (delete "_id" MoreExamples.stored_document))).
Proof.
  assert (H : normalize_dealer MoreExamples.stored_document
    = Some (<["id" := VStr "0000000000000000000000ff"]>
              (delete "_id" MoreExamples.stored_document))) by reflexivity.
  split; [reflexivity|]. split; [exact H|].
  exact (proj2 (normalize_twice_loses_id MoreExamples.stored_document _
                  (VObjectId (Oid 255)) eq_refl eq_refl) H).
Defined.

(** X13: for a document with a truthy [_id], [normalize] renames the key:
    the record has the keys of the document without [_id], and [id], which
    holds the text of the identifier; every other member keeps its value in
    the listing of dealers, and its value or the ISO text of its date in the
    listing of cars. *)
Theorem normalize_renames_identifier (d r : document) (v : value) :
  d !! "_id" = Some v -> truthy v = true ->
  (normalize_car d = Some r ->
     dom r = {[ "id" ]} ∪ (dom d ∖ {[ "_id" ]}) /\
     (exists s, py_str v = Some s /\ r !! "id" = Some (VStr s)) /\
     (forall k, k ≠ "id" -> k ≠ "_id" -> r !! k = isoformat <$> d !! k)) /\
  (normalize_dealer d = Some r ->
     dom r = {[ "id" ]} ∪ (dom d ∖ {[ "_id" ]}) /\
     (exists s, py_str v = Some s /\ r !! "id" = Some (VStr s)) /\
     (forall k, k ≠ "id" -> k ≠ "_id" -> r !! k = d !! k)).
Proof.
  intros Hv Ht.
  assert (Hpub : forall d', publish_id d = Some d' ->
            exists s, py_str v = Some s /\ d' = <["id" := VStr s]> (delete "_id" d)).
  { intros d'. unfold publish_id. rewrite Hv, Ht.
    destruct (py_str v) as [s|]; simpl; [|done]. intros [= <-]. eauto. }
  split; intros Hr.
  - split; [|split].
    + unfold normalize_car in Hr.
      destruct (publish_id d) as [d'|] eqn:Hd; simpl in Hr; [|done].
      injection Hr as <-. destruct (Hpub d' eq_refl) as (s & Hs & ->).
      rewrite convert_dates_fmap. by rewrite dom_fmap_L, dom_insert_L, dom_delete_L.
    + unfold normalize_car in Hr.
      destruct (publish_id d) as [d'|] eqn:Hd; simpl in Hr; [|done].
      injection Hr as <-. destruct (Hpub d' eq_refl) as (s & Hs & ->).
      rewrite convert_dates_fmap. exists s. split; [done|].
      by rewrite lookup_fmap, lookup_insert_eq.
    + intros k Hk1 Hk2. by apply normalize_car_lookup.
  - destruct (Hpub r Hr) as (s & Hs & Heq). split; [|split].
    + rewrite Heq. by rewrite dom_insert_L, dom_delete_L.
    + exists s. split; [done|]. rewrite Heq. by rewrite lookup_insert_eq.
    + intros k Hk1 Hk2. by apply (publish_id_lookup d r k Hr).
Qed.

Lemma normalize_renames_identifier_witness :
  MoreExamples.stored_document !! "_id" = Some (VObjectId (Oid 255)) /\
  dom (<["id" := VStr "0000000000000000000000ff"]>
         (delete "_id" MoreExamples.stored_document))
    = {[ "id" ]} ∪ (dom MoreExamples.stored_document ∖ {[ "_id" ]}).
Proof.
  split; [reflexivity|].
  refine (proj1 (proj2 (normalize_renames_identifier MoreExamples.stored_document
                          (<["id" := VStr "0000000000000000000000ff"]>
                             (delete "_id" MoreExamples.stored_document))
                          (VObjectId (Oid 255)) eq_refl eq_refl) _)).
  reflexivity.
Defined.

(** ** The filter of the car listing *)

(** X14: the filter of [list_cars] is empty exactly when no argument is
    effective: make and model are absent or empty and neither price bound is
    given; its fields are among make, model and price. *)
Theorem car_query_empty_iff (make model : option string) (lo hi : option Q) :
  (car_query make model lo hi = ∅ <->
     truthy (of_optional_str make) = false /\ truthy (of_optional_str model) = false /\
     lo = None /\ hi = None) /\
  dom (car_query make model lo hi) ⊆ ({[ "make"; "model"; "price" ]} : gset string).
Proof.
  split.
  - rewrite map_empty. split.
    + intros Hnone.
      pose proof (Hnone "make") as Hmk. pose proof (Hnone "model") as Hmd.
      pose proof (Hnone "price") as Hpr.
      rewrite car_query_lookup in Hmk, Hmd. rewrite car_query_price in Hpr.
      simpl in Hmk, Hmd.
      destruct (truthy (of_optional_str make)); [done|].
      destruct (truthy (of_optional_str model)); [done|].
      destruct lo, hi; try done.
    + intros (Hmk & Hmd & -> & ->) k. rewrite car_query_lookup, Hmk, Hmd.
      repeat case_decide; done.
  - intros k [c Hk]%elem_of_dom. rewrite car_query_lookup in Hk.
    repeat case_decide; subst; try done; set_solver.
Qed.

Lemma eval_anchored_regex_true (s : string) (fld : option value) :
  eval_operators (anchored_regex s) fld = Some true ->
  exists subject, fld = Some (VStr subject) /\
    is_ascii7 subject = true /\ one_line subject = true.
Proof.
  assert (Hok : bool_decide (anchored_regex s ≠ ∅ /\
                             dom (anchored_regex s) ⊆ supported_operators) = true).
  { vm_compute. reflexivity. }
  unfold eval_operators. rewrite Hok.
  change (anchored_regex s !! "$gte") with (@None value).
  change (anchored_regex s !! "$lte") with (@None value).
  unfold regex_op.
  change (anchored_regex s !! "$regex") with (Some (VStr ("^" +:+ s +:+ "$"))).
  change (anchored_regex s !! "$options") with (Some (VStr "i")).
  simpl.
  destruct fld as [[| | | |subject| | | |]|];
    try (simpl; intros Hf; discriminate Hf).
  unfold regex_match.
  destruct (is_ascii7 ("^" +:+ s +:+ "$")); [|simpl; intros Hf; discriminate Hf].
  destruct (is_ascii7 subject) eqn:Ha; [|simpl; intros Hf; discriminate Hf].
  destruct (one_line subject) eqn:Hl; [|simpl; intros Hf; discriminate Hf].
  intros _. eauto.
Qed.



(** ** Identifiers as texts *)

Lemma string_forallb_app (f : ascii -> bool) (s t : string) :
  string_forallb f (s +:+ t) = string_forallb f s && string_forallb f t.
Proof. induction s as [|c s IH]; simpl; [done|]. by rewrite IH, andb_assoc. Qed.

Lemma string_length_app (s t : string) :
  String.length (s +:+ t) = (String.length s + String.length t)%nat.
Proof. induction s as [|c s IH]; simpl; [done|]. by rewrite IH. Qed.

Lemma zeros_spec (n : nat) :
  String.length (zeros n) = n /\ string_forallb is_hex_digit (zeros n) = true.
Proof. induction n as [|n [IHl IHh]]; simpl; [done|]. by rewrite IHl, IHh. Qed.

(** The digits of a positive number below [16^k]: at most [k], all of them
    hexadecimal. *)
Lemma hex_of_pos_spec (k : nat) (p : positive) (rest : string) :
  (N.pos p < 16 ^ N.of_nat k)%N ->
  (String.length (HexString.Raw.of_pos p rest) <= k + String.length rest)%nat /\
  (string_forallb is_hex_digit rest = true ->
   string_forallb is_hex_digit (HexString.Raw.of_pos p rest) = true).
Proof.
  revert p rest. induction k as [|k IH]; intros p rest Hp.
  - simpl in Hp. lia.
  - rewrite Nat2N.inj_succ, N.pow_succ_r' in Hp.
    set (X := (16 ^ N.of_nat k)%N) in *.
    assert (Hstep : forall (q : positive) (c : ascii),
              (N.pos q < X)%N -> is_hex_digit c = true ->
              (String.length (HexString.Raw.of_pos q (String c rest))
                 <= S k + String.length rest)%nat /\
              (string_forallb is_hex_digit rest = true ->
               string_forallb is_hex_digit (HexString.Raw.of_pos q (String c rest)) = true)).
    { intros q c Hq Hc. destruct (IH q (String c rest) Hq) as [Hl Hh]. split.
      - simpl in Hl. lia.
      - intros Hrest. apply Hh. simpl. by rewrite Hc, Hrest. }
    assert (HX : (1 <= X)%N).
    { unfold X. pose proof (N.pow_nonzero 16 (N.of_nat k)). lia. }
    do 4 try destruct p as [p|p|]; simpl;
      try (apply Hstep; [lia|reflexivity]);
      (split; [lia|intros ->; reflexivity]).
Qed.

Lemma str_oid_spec (o : ObjectId) :
  (oid_value o < 16 ^ 24)%N ->
  String.length (str_oid o) = 24%nat /\ string_forallb is_hex_digit (str_oid o) = true.
Proof.
  intros Ho. unfold str_oid. simpl.
  assert (Hhex : (String.length (hex_digits (oid_value o)) <= 24)%nat /\
                 string_forallb is_hex_digit (hex_digits (oid_value o)) = true).
  { destruct (oid_value o) as [|p]; simpl; [split; [lia|done]|].
    destruct (hex_of_pos_spec 24 p "" Ho) as [Hl Hh]. simpl in Hl.
    split; [lia|by apply Hh]. }
  destruct Hhex as [Hl Hh].
  destruct (zeros_spec (24 - String.length (hex_digits (oid_value o)))) as [Hzl Hzh].
  rewrite string_length_app, string_forallb_app, Hzl, Hzh, Hh. split; [lia|done].
Qed.

Lemma hex_digit_not_space (c : ascii) :
  is_hex_digit c = true -> is_ascii_space c = false.
Proof.
  destruct c as [[] [] [] [] [] [] [] []]; vm_compute; intros; congruence.
Qed.

Lemma is_hex_digit_Some (c : ascii) :
  is_hex_digit c = true -> exists v, HexString.ascii_to_digit c = Some v.
Proof. unfold is_hex_digit. destruct (HexString.ascii_to_digit c); [eauto|done]. Qed.

(** A text of hexadecimal digits denotes one byte for each pair. *)
Lemma fromhex_hex_digits (n : nat) (s : string) :
  String.length s = (2 * n)%nat -> string_forallb is_hex_digit s = true ->
  exists bytes, fromhex s = Some bytes /\ length bytes = n.
Proof.
  revert s. induction n as [|n IH]; intros s Hlen Hhex.
  - destruct s; [|done]. exists []. done.
  - destruct s as [|c [|c' s]]; simpl in Hlen; try lia.
    simpl in Hhex. apply andb_true_iff in Hhex as [Hc Hhex].
    apply andb_true_iff in Hhex as [Hc' Hhex].
    destruct (IH s) as (bytes & Hbytes & Hn); [lia|done|].
    destruct (is_hex_digit_Some c Hc) as [v Hv].
    destruct (is_hex_digit_Some c' Hc') as [v' Hv'].
    simpl. rewrite (hex_digit_not_space c Hc), Hv, Hv', Hbytes. simpl.
    eexists. split; [done|]. simpl. by rewrite Hn.
Qed.

Lemma validate_hex_digits (s : string) :
  String.length s = 24%nat -> string_forallb is_hex_digit s = true ->
  validate_object_id s = Return (oid_of_str s).
Proof.
  intros Hlen Hhex.
  destruct (fromhex_hex_digits 12 s Hlen Hhex) as (bytes & Hbytes & Hn).
  unfold validate_object_id, parse_object_id. by rewrite Hlen, Hbytes, Hn.
Qed.

(** What [bytes.fromhex] accepts holds hexadecimal digits and whitespace
    only. *)
Lemma fromhex_characters (n : nat) (s : string) (bytes : list N) :
  (String.length s <= n)%nat -> fromhex s = Some bytes ->
  string_forallb (fun c => is_hex_digit c || is_ascii_space c) s = true.
Proof.
  revert s bytes. induction n as [|n IH]; intros s bytes Hlen.
  - destruct s; [done|simpl in Hlen; lia].
  - destruct s as [|c s]; [done|]. simpl in Hlen. simpl.
    destruct (is_ascii_space c) eqn:Hsp.
    + intros Hs. rewrite orb_true_r. simpl. apply (IH s bytes); [lia|done].
    + unfold is_hex_digit.
      destruct (HexString.ascii_to_digit c) as [v|]; [|done].
      destruct s as [|c' s]; [done|].
      destruct (HexString.ascii_to_digit c') as [v'|] eqn:Hv'; [|done].
      destruct (fromhex s) as [bs|] eqn:Hs; [|done]. intros _. simpl.
      rewrite Hv'. simpl. apply (IH s bs); [simpl in Hlen; lia|done].
Qed.

(** X16: the text that [normalize] publishes for a stored identifier is
    accepted by [validate_object_id], which gives the identifier back. *)
Theorem published_id_validates (d r : document) (o : ObjectId) :
  d !! "_id" = Some (VObjectId o) -> (oid_value o < 16 ^ 24)%N ->
  normalize_car d = Some r \/ normalize_dealer d = Some r ->
  exists s, r !! "id" = Some (VStr s) /\ validate_object_id s = Return o.
Proof.
  intros Hd Ho Hr. exists (str_oid o). split.
  - destruct (normalize_stored d o Hd) as [Hc Hdl].
    destruct Hr as [Hr|Hr].
    + rewrite Hc in Hr. injection Hr as <-. by rewrite lookup_insert_eq.
    + rewrite Hdl in Hr. injection Hr as <-. by rewrite lookup_insert_eq.
  - destruct (str_oid_spec o Ho) as [Hl Hh].
    rewrite (validate_hex_digits _ Hl Hh). by rewrite oid_of_str_oid.
Qed.

Lemma published_id_validates_witness :
  MoreExamples.stored_document !! "_id" = Some (VObjectId (Oid 255)) /\
  exists s,
    (<["id" := VStr "0000000000000000000000ff"]>
       (delete "_id" MoreExamples.stored_document) : document) !! "id" = Some (VStr s) /\
    validate_object_id s = Return (Oid 255).
Proof.
  split; [reflexivity|].
  apply (published_id_validates MoreExamples.stored_document _ (Oid 255)).
  - reflexivity.
  - reflexivity.
  - right. reflexivity.
Defined.

(** X17: [validate_object_id] has one error, status 400 with the detail
    "Invalid id format", which it gives exactly for a text whose length is
    not 24 or that [bytes.fromhex] rejects, in particular for a text with a
    character that is neither a hexadecimal digit nor whitespace; a text of
    24 hexadecimal digits is returned as the identifier that it denotes. *)
Theorem validate_object_id_answers (s : string) :
  (validate_object_id s = Raise (HTTPException 400 "Invalid id format") <->
     String.length s ≠ 24%nat \/ fromhex s = None) /\
  (forall e, validate_object_id s = Raise e -> e = HTTPException 400 "Invalid id format") /\
  (string_forallb (fun c => is_hex_digit c || is_ascii_space c) s = false ->
     validate_object_id s = Raise (HTTPException 400 "Invalid id format")) /\
  (String.length s = 24%nat -> string_forallb is_hex_digit s = true ->
     validate_object_id s = Return (oid_of_str s)).
Proof.
  assert (Hiff : validate_object_id s = Raise (HTTPException 400 "Invalid id format") <->
                 String.length s ≠ 24%nat \/ fromhex s = None).
  { unfold validate_object_id, parse_object_id.
    destruct (Nat.eqb_spec (String.length s) 24) as [Hlen|Hlen].
    - destruct (fromhex s) as [bytes|].
      + destruct (Nat.eqb (length bytes) 12); split; try done.
        all: intros [Hf|Hf]; [by destruct Hf|discriminate Hf].
      + split; [by right|done].
    - split; [by left|done]. }
  split; [exact Hiff|]. split; [|split].
  - unfold validate_object_id. intros e.
    destruct (parse_object_id s); intros Hf; try discriminate Hf. by injection Hf as <-.
  - intros Hbad. apply Hiff.
    destruct (fromhex s) as [bytes|] eqn:Hs; [|by right].
    rewrite (fromhex_characters (String.length s) s bytes) in Hbad; [done|lia|done].
  - apply validate_hex_digits.
Qed.

(** ** The diagnostic route *)

Lemma substring_prefix_length (n : nat) (s : string) :
  (String.length (String.substring 0 n s) <= n)%nat.
Proof.
  revert s. induction n as [|n IH]; intros [|c s]; simpl; try lia.
  specialize (IH s). lia.
Qed.

(** X18: the report of [test_database] always says that the backend runs
    and never keeps the initial "Not Available"; it lists at most ten
    collections, the first ten that the database names; without a database
    it says "Not Connected" and gives no URL and no name; when the listing of
    collections fails it still says "Connected", lists nothing, and shows at
    most fifty characters of the failure. *)
Theorem test_database_report (db : option db_handle) (url : option string) (r : document) :
  test_database db url = Some r ->
  r !! "backend" = Some (VStr "✅ Running") /\
  r !! "database" ≠ Some (VStr "❌ Not Available") /\
  (exists names,
      r !! "collections" = Some (VList (VStr <$> names)) /\ (length names <= 10)%nat /\
      names = match db with
              | Some h => match list_collection_names h with
                          | inr all => take 10 all
                          | inl _ => []
                          end
              | None => []
              end) /\
  match db with
  | None =>
      r !! "connection_status" = Some (VStr "Not Connected") /\
      r !! "database_url" = Some VNone /\ r !! "database_name" = Some VNone /\
      r !! "database" = Some (VStr "⚠️  Available but not initialized")
  | Some h =>
      r !! "connection_status" = Some (VStr "Connected") /\
      r !! "database_name" = Some (VStr (default "✅ Connected" (db_name h))) /\
      r !! "database_url"
        = Some (VStr (if truthy (of_optional_str url) then "✅ Set" else "❌ Not Set")) /\
      match list_collection_names h with
      | inr _ => r !! "database" = Some (VStr "✅ Connected & Working")
      | inl e =>
          exists msg, str_exn e = Some msg /\
            r !! "database"
              = Some (VStr ("⚠️  Connected but Error: " +:+ String.substring 0 50 msg)) /\
            (String.length (String.substring 0 50 msg) <= 50)%nat
      end
  end.
Proof.
  unfold test_database. destruct db as [h|].
  - destruct (list_collection_names h) as [e|all].
    + unfold str50. destruct (str_exn e) as [msg|]; simpl; [|done].
      destruct (is_ascii7 msg); simpl; [|done]. intros [= <-].
      split; [reflexivity|]. split; [|split].
      * rewrite lookup_insert_eq. intros Hf. injection Hf as Hf. discriminate Hf.
      * exists []. split; [reflexivity|]. split; [simpl; lia|done].
      * split; [reflexivity|]. split; [reflexivity|]. split; [reflexivity|].
        exists msg. split; [done|]. split; [by rewrite lookup_insert_eq|].
        apply substring_prefix_length.
    + intros [= <-]. split; [reflexivity|]. split; [|split].
      * rewrite lookup_insert_eq. intros Hf. discriminate Hf.
      * exists (take 10 all). split; [reflexivity|]. split; [|done].
        rewrite length_take. lia.
      * split; [reflexivity|]. split; [reflexivity|]. split; reflexivity.
  - intros [= <-]. split; [reflexivity|]. split; [|split].
    + rewrite lookup_insert_eq. intros Hf. discriminate Hf.
    + exists []. split; [reflexivity|]. split; [simpl; lia|done].
    + split; [reflexivity|]. split; [reflexivity|]. split; reflexivity.
Qed.

Lemma test_database_report_witness :
  exists r,
    test_database (Some MoreExamples.failing_db) None = Some r /\
    r !! "backend" = Some (VStr "✅ Running") /\
    r !! "database" ≠ Some (VStr "❌ Not Available").
Proof.
  eexists. split; [reflexivity|].
  split; [|exact (proj1 (proj2 (test_database_report (Some MoreExamples.failing_db) None _
                                  eq_refl)))].
  exact (proj1 (test_database_report (Some MoreExamples.failing_db) None _ eq_refl)).
Defined.

(** ** The answer of the seed route *)

Section seed_answer.
Context {S : Type} `{!DocumentAccess S}.

Lemma for_each_length {E A B} (f : A -> M S E B) (xs : list A) (ys : list B) (st st' : S) :
  for_each f xs st = (Return ys, st') -> length ys = length xs.
Proof.
  revert ys st. induction xs as [|x xs IH]; intros ys st; simpl.
  - by intros [= <- _].
  - unfold mbind, M_bind, bind.
    destruct (f x st) as [[y| |] st1]; try done.
    destruct (for_each f xs st1) as [[ys'| |] st2] eqn:Hxs; try done.
    intros [= <- <-]. simpl. by rewrite (IH ys' st1 Hxs).
Qed.

(** X19: whatever the access layer does, when [create_document] returns
    an identifier for each of the four samples in turn, the seed route
    returns these identifiers in the order of the samples under [inserted]
    and their number, four, under [count], and leaves the store as the last
    call left it. *)
Theorem seed_cars_answer (ids : list string) (st st' : S) :
  for_each (create_document "car") Seeding.sample_cars st = (Return ids, st') ->
  seed_cars st
    = (Return (<["count" := VInt 4]> ({[ "inserted" := VList (VStr <$> ids) ]})), st') /\
  length ids = 4%nat.
Proof.
  intros Hrun. pose proof (for_each_length _ _ _ _ _ Hrun) as Hlen.
  change (length Seeding.sample_cars) with 4%nat in Hlen. split; [|done].
  unfold seed_cars. apply try_except_return.
  rewrite (bind_return _ _ st _ st (samples_constructed st)).
  rewrite (bind_return _ _ st _ st' Hrun). by rewrite Hlen.
Qed.

End seed_answer.

Lemma seed_cars_answer_witness :
  for_each (create_document "car") Seeding.sample_cars Examples.empty_store
    = (Return (Seeding.fresh_ids 0 4), Examples.seeded_store) /\
  seed_cars Examples.empty_store
    = (Return (<["count" := VInt 4]>
                 ({[ "inserted" := VList (VStr <$> Seeding.fresh_ids 0 4) ]})),
       Examples.seeded_store) /\
  length (Seeding.fresh_ids 0 4) = 4%nat.
Proof.
  split; [reflexivity|].
  apply (seed_cars_answer (Seeding.fresh_ids 0 4) Examples.empty_store Examples.seeded_store).
  reflexivity.
Defined.

(** ** The responses of the listing routes *)

Lemma serialize_isoformat (v : value) : serialize (isoformat v) = serialize v.
Proof. by destruct v. Qed.

Lemma serialize_scalar (v : value) : scalar v = true -> serialize v = Some v.
Proof. by destruct v. Qed.

(** Serialisation changes no plain value. *)
Lemma serialize_plain (v : value) : plain v = true -> serialize v = Some v.
Proof.
  destruct v as [| | | | |l| | |]; try done. simpl. intros Hl.
  assert (Hgo : (fix serialize_list (l : list value) : option (list value) :=
                   match l with
                   | [] => Some []
                   | x :: l' =>
                       match serialize x, serialize_list l' with
                       | Some y, Some ys => Some (y :: ys)
                       | _, _ => None
                       end
                   end) l = Some l).
  { induction l as [|x l IH]; [done|]. simpl in Hl.
    apply andb_true_iff in Hl as [Hx Hl]. rewrite (serialize_scalar x Hx), (IH Hl). done. }
  by rewrite Hgo.
Qed.

Lemma serialize_record_Some (r : document) :
  (forall k v, r !! k = Some v -> is_Some (serialize v)) ->
  serialize_record r = Some (omap serialize r).
Proof.
  intros Hall. unfold serialize_record. by rewrite bool_decide_eq_true_2.
Qed.

(** A stored document whose members can be serialised is published by
    either [normalize] followed by the serialisation of the response. *)
Lemma normalize_then_serialize (d : document) :
  Seeding.stored d -> json_ready d = true ->
  exists rc rd r,
    normalize_car d = Some rc /\ serialize_record rc = Some r /\
    normalize_dealer d = Some rd /\ serialize_record rd = Some r /\
    published d r.
Proof.
  intros [oid Hoid] Hready. apply bool_decide_eq_true_1 in Hready.
  destruct (normalize_stored d oid Hoid) as [Hc Hd].
  set (r := <["id" := VStr (str_oid oid)]> (omap serialize (delete "_id" d)) : document).
  assert (Hmember : forall k v, k ≠ "id" -> delete "_id" d !! k = Some v ->
                      is_Some (serialize v)).
  { intros k v Hk. destruct (decide (k = "_id")) as [->|Hk'].
    - by rewrite lookup_delete_eq.
    - rewrite lookup_delete_ne by done. intros Hv.
      destruct (Hready k v Hv) as [?|[?|?]]; done. }
  assert (Hrd : serialize_record (<["id" := VStr (str_oid oid)]> (delete "_id" d)) = Some r).
  { rewrite serialize_record_Some.
    - unfold r. by rewrite omap_insert_Some with (y := VStr (str_oid oid)).
    - intros k v. destruct (decide (k = "id")) as [->|Hk].
      + rewrite lookup_insert_eq. intros [= <-]. by eexists.
      + rewrite lookup_insert_ne by done. by apply Hmember. }
  assert (Hrc : serialize_record
                  (<["id" := VStr (str_oid oid)]> (isoformat <$> delete "_id" d)) = Some r).
  { rewrite serialize_record_Some.
    - unfold r. rewrite omap_insert_Some with (y := VStr (str_oid oid)) by done.
      f_equal. f_equal. apply map_eq. intros k. rewrite !lookup_omap, lookup_fmap.
      destruct (delete "_id" d !! k); simpl; [apply serialize_isoformat|done].
    - intros k v. destruct (decide (k = "id")) as [->|Hk].
      + rewrite lookup_insert_eq. intros [= <-]. by eexists.
      + rewrite lookup_insert_ne by done. rewrite lookup_fmap.
        destruct (delete "_id" d !! k) as [w|] eqn:Hw; simpl; [|done].
        intros [= <-]. rewrite serialize_isoformat. by apply (Hmember k w). }
  exists (<["id" := VStr (str_oid oid)]> (isoformat <$> delete "_id" d)),
    (<["id" := VStr (str_oid oid)]> (delete "_id" d)), r.
  split; [exact Hc|]. split; [exact Hrc|].
  split; [exact Hd|]. split; [exact Hrd|].
  exists oid. split; [done|]. split; [apply lookup_insert_eq|]. split.
  - unfold r. rewrite lookup_insert_ne by done. by rewrite lookup_omap, lookup_delete_eq.
  - intros k Hk Hk'. unfold r. rewrite lookup_insert_ne by done.
    rewrite lookup_omap, lookup_delete_ne by done.
    destruct (d !! k) as [v|]; simpl; [|done].
    destruct v; try done; (split; [done|]); intros Hp; by apply serialize_plain.
Qed.

Lemma normalize_then_serialize_all (docs : list document) :
  Forall Seeding.stored docs -> Forall (fun d => json_ready d = true) docs ->
  exists rcs rds rs,
    mapM normalize_car docs = Some rcs /\ mapM serialize_record rcs = Some rs /\
    mapM normalize_dealer docs = Some rds /\ mapM serialize_record rds = Some rs /\
    Forall2 published docs rs.
Proof.
  induction docs as [|d docs IH]; intros Hst Hrd.
  - exists [], [], []. repeat split; constructor.
  - apply Forall_cons in Hst as [Hd Hst]. apply Forall_cons in Hrd as [Hr Hrd].
    destruct (IH Hst Hrd) as (rcs & rds & rs & Hc & Hcs & Hdl & Hds & Hall).
    destruct (normalize_then_serialize d Hd Hr) as (rc & rd & r & Hc1 & Hcs1 & Hd1 & Hds1 & Hp).
    exists (rc :: rcs), (rd :: rds), (r :: rs). simpl.
    rewrite Hc1, Hd1, Hc, Hdl. simpl. rewrite Hcs1, Hds1, Hcs, Hds. simpl.
    repeat split; by constructor.
Qed.

Section responses.
Context {S : Type} `{!DocumentAccess S}.


End responses.

